(** * opcua-client: a shallow embedding of [opcua-client.py]

    The script connects to an OPC UA server through the [asyncua] client
    library and reads one node or writes one (type-converted) value to it.

    The embedding has three layers:
    - [Py]: the Python values and built-ins the script relies on
      ([int], [float], [bool], [str], [==], f-strings, exceptions);
    - [Ua]: the interface of the [asyncua] library as the script uses it,
      given as a state machine supplied by the environment, together with a
      small monad that threads the library state and records every library
      call and every log record in program order;
    - [Client]: the two functions of the script, [convert_value_to_node_type]
      and [main], and the URL built under [__main__].

    [Spec] names what the properties talk about, [Fixture] holds the
    servers the examples run against, and [PyFacts], [UaFacts] and
    [Properties] hold the proofs. [Paths] follows the remaining paths of
    [main] (failures of each library call, how [main] ends, what holds on
    every path), and [CommandLineFacts] covers numbers as text and the
    options of the command line. *)

From Stdlib Require Import ZArith List String Ascii Bool.
From Stdlib Require Import DecimalString DecimalPos DecimalZ Lia.
From Stdlib Require Import Floats.SpecFloat.
Import ListNotations.

Local Open Scope string_scope.
Local Open Scope list_scope.
Local Open Scope Z_scope.

(* ================================================================== *)
(** ** Python values and built-ins *)
(* ================================================================== *)

Module Py.

(** [asyncua.ua.VariantType], an [IntEnum] of the library. *)
Inductive VariantType : Type :=
| Null | Boolean | SByte | Byte | Int16 | UInt16 | Int32 | UInt32
| Int64 | UInt64 | Float | Double | String | DateTime | Guid | ByteString
| XmlElement | NodeId | ExpandedNodeId | StatusCode | QualifiedName
| LocalizedText | ExtensionObject | DataValue | Variant | DiagnosticInfo.

(** The integer behind each member; members compare by it. *)
Definition variant_code (t : VariantType) : Z :=
  match t with
  | Null => 0 | Boolean => 1 | SByte => 2 | Byte => 3 | Int16 => 4
  | UInt16 => 5 | Int32 => 6 | UInt32 => 7 | Int64 => 8 | UInt64 => 9
  | Float => 10 | Double => 11 | String => 12 | DateTime => 13 | Guid => 14
  | ByteString => 15 | XmlElement => 16 | NodeId => 17
  | ExpandedNodeId => 18 | StatusCode => 19 | QualifiedName => 20
  | LocalizedText => 21 | ExtensionObject => 22 | DataValue => 23
  | Variant => 24 | DiagnosticInfo => 25
  end.

Definition variant_eqb (a b : VariantType) : bool :=
  variant_code a =? variant_code b.

(** [x in [a, b, ...]] on enum members. *)
Definition variant_in (x : VariantType) (l : list VariantType) : bool :=
  existsb (variant_eqb x) l.

(** Binary64 floats, by their IEEE 754 specification. *)
Definition prec : Z := 53.
Definition emax : Z := 1024.

(** The Python objects that reach the script: what it computes itself
    ([int], [float], [bool], [str]) and what a node read may return.
    [VOther] stands for any object of another class (datetime, bytes,
    list, ...), named by a tag. *)
Inductive PyValue : Type :=
| VNone
| VBool (b : bool)
| VInt (z : Z)
| VFloat (f : spec_float)
| VStr (s : string)
| VOther (tag : nat).

(** A float equals an integer when it holds exactly that integer. *)
Definition float_eq_int (f : spec_float) (z : Z) : bool :=
  match f with
  | S754_zero _ => z =? 0
  | S754_finite s m e =>
      let v := if s then Z.neg m else Z.pos m in
      if 0 <=? e then v * 2 ^ e =? z else v =? z * 2 ^ (- e)
  | S754_infinity _ | S754_nan => false
  end.

(** The numeric reading of a value: [bool] is a subclass of [int]. *)
Definition numeric (v : PyValue) : option (Z + spec_float) :=
  match v with
  | VBool b => Some (inl (Z.b2z b))
  | VInt z => Some (inl z)
  | VFloat f => Some (inr f)
  | _ => None
  end.

(** [a == b]. Numbers compare by value across [bool], [int] and [float]
    (NaN differs from everything, itself included); strings compare with
    strings; [None] equals only [None]; objects of other classes equal
    none of the above. *)
Definition py_eq (a b : PyValue) : bool :=
  match numeric a, numeric b with
  | Some (inl x), Some (inl y) => x =? y
  | Some (inl x), Some (inr g) => float_eq_int g x
  | Some (inr f), Some (inl y) => float_eq_int f y
  | Some (inr f), Some (inr g) => SFeqb f g
  | None, None =>
      match a, b with
      | VNone, VNone => true
      | VStr s, VStr t => String.eqb s t
      | VOther i, VOther j => Nat.eqb i j
      | _, _ => false
      end
  | _, _ => false
  end.

(** f-strings: literal text and formatted holes, in order. *)
Inductive Frag : Type :=
| Lit (s : string)
| Fmt (v : PyValue)            (* {v} *)
| FmtRepr (v : PyValue)        (* {v!r} *)
| FmtType (t : VariantType).   (* {data_type} *)

Definition fstring : Type := list Frag.

(** Exceptions, by the part of the class hierarchy the handlers of the
    script tell apart: [ValueError] (and subclasses), any other subclass of
    [Exception], and the rest of [BaseException] (KeyboardInterrupt,
    CancelledError, ...). [str(e)] is the message. *)
Inductive ExcClass : Type := ValueError | OtherException | BaseExceptionOnly.

Record Exn : Type := mkExn { exc_class : ExcClass; exc_msg : fstring }.

Definition is_ValueError (e : Exn) : bool :=
  match exc_class e with ValueError => true | _ => false end.

Definition is_Exception (e : Exn) : bool :=
  match exc_class e with BaseExceptionOnly => false | _ => true end.

(** The result of evaluating an expression. *)
Inductive Result (A : Type) : Type :=
| Ok (a : A)
| Raise (e : Exn).
Arguments Ok {A} a.
Arguments Raise {A} e.

(** *** Text scanning shared by [int] and [float] *)

Definition code (c : ascii) : Z := Z.of_N (N_of_ascii c).

(** [Py_ISSPACE]: space, \t, \n, \v, \f, \r. *)
Definition is_space (c : ascii) : bool :=
  ((9 <=? code c) && (code c <=? 13)) || (code c =? 32).

Definition is_digit (c : ascii) : bool :=
  (48 <=? code c) && (code c <=? 57).

Definition digit_value (c : ascii) : Z := code c - 48.

Definition is_ascii (c : ascii) : bool := code c <? 128.

Fixpoint lstrip (l : list ascii) : list ascii :=
  match l with
  | c :: l' => if is_space c then lstrip l' else l
  | [] => []
  end.

Definition strip (l : list ascii) : list ascii :=
  rev (lstrip (rev (lstrip l))).

(** [digit (["_"] digit)*] after its first digit: the digits read so far
    (most recent first) and the rest of the text. *)
Fixpoint digitpart_tail (l : list ascii) (acc : list Z)
  : list Z * list ascii :=
  match l with
  | c :: l' =>
      if is_digit c then digitpart_tail l' (digit_value c :: acc)
      else if Ascii.eqb c "_"%char then
        match l' with
        | d :: l'' =>
            if is_digit d then digitpart_tail l'' (digit_value d :: acc)
            else (acc, l)
        | [] => (acc, l)
        end
      else (acc, l)
  | [] => (acc, l)
  end.

(** An optional digit part: its digits in reading order (empty when the
    text does not start with a digit) and the rest. *)
Definition digitpart (l : list ascii) : list Z * list ascii :=
  match l with
  | c :: l' =>
      if is_digit c then
        let '(ds, rest) := digitpart_tail l' [digit_value c] in
        (rev ds, rest)
      else ([], l)
  | [] => ([], l)
  end.

Definition digits_value (ds : list Z) : Z :=
  fold_left (fun a d => 10 * a + d) ds 0.

(** An optional sign: [true] for minus. *)
Definition sign (l : list ascii) : bool * list ascii :=
  match l with
  | c :: l' =>
      if Ascii.eqb c "-"%char then (true, l')
      else if Ascii.eqb c "+"%char then (false, l')
      else (false, l)
  | [] => (false, l)
  end.

(** The interpreter settings the conversions depend on.
    [int_max_str_digits] is [sys.get_int_max_str_digits()] (0 switches the
    limit off; interpreters without the limit behave as with 0).
    [unicode_to_ascii] is the interpreter's rewriting of a string with
    non-ASCII characters before a number is read from it: Unicode spaces
    become blanks and Unicode decimal digits their ASCII digit, from the
    Unicode database of the interpreter; strings are held UTF-8 encoded. *)
Record Runtime : Type := mkRuntime {
  int_max_str_digits : Z;
  unicode_to_ascii : string -> string
}.

(** The text a number is read from: an ASCII string is taken as it is. *)
Definition number_text (rt : Runtime) (s : string) : list ascii :=
  let l := list_ascii_of_string s in
  if forallb is_ascii l then l
  else list_ascii_of_string (unicode_to_ascii rt s).

(** *** [int(s)] for a string, base 10 *)

Definition invalid_int_literal (s : string) : Exn :=
  mkExn ValueError
    [Lit "invalid literal for int() with base 10: "; FmtRepr (VStr s)].

Definition int_too_long (limit digits : Z) : Exn :=
  mkExn ValueError
    [Lit "Exceeds the limit ("; Fmt (VInt limit);
     Lit " digits) for integer string conversion: value has ";
     Fmt (VInt digits);
     Lit " digits; use sys.set_int_max_str_digits() to increase the limit"].

(** Below this many digits the limit is not consulted. *)
Definition max_str_digits_threshold : Z := 640.

(** The text goes on with an underscore. *)
Definition underscore_next (l : list ascii) : bool :=
  match l with
  | c :: _ => Ascii.eqb c "_"%char
  | [] => false
  end.

(** Blanks around, an optional sign, then decimal digits which single
    underscores may separate, and nothing else. A misplaced underscore
    (doubled, or not followed by a digit) is found while the digits are
    scanned, before their number is held against the limit; any other
    text after the digits is found after it. *)
Definition py_int (rt : Runtime) (s : string) : Result Z :=
  let '(neg, body) := sign (strip (number_text rt s)) in
  let '(ds, rest) := digitpart body in
  let n := Z.of_nat (List.length ds) in
  match ds with
  | [] => Raise (invalid_int_literal s)
  | _ :: _ =>
      if underscore_next rest then Raise (invalid_int_literal s)
      else if (max_str_digits_threshold <? n) && (0 <? int_max_str_digits rt)
              && (int_max_str_digits rt <? n)
      then Raise (int_too_long (int_max_str_digits rt) n)
      else
        match rest with
        | [] => Ok (if neg then - digits_value ds else digits_value ds)
        | _ :: _ => Raise (invalid_int_literal s)
        end
  end.

(** [bool(n)] on an integer. *)
Definition py_bool_of_int (n : Z) : bool := negb (n =? 0).

(** *** [float(s)] for a string *)

Definition could_not_convert_float (s : string) : Exn :=
  mkExn ValueError
    [Lit "could not convert string to float: "; FmtRepr (VStr s)].

(** The binary64 nearest to [(-1)^neg * d * 10^e], ties to even. The
    quotient is taken with at least three more bits than the 53 kept and a
    sticky bit below them, so it rounds as the exact value does. *)
Definition decimal_to_float (neg : bool) (d e : Z) : spec_float :=
  if d =? 0 then S754_zero neg
  else
    let num := if 0 <=? e then d * 10 ^ e else d in
    let den := if 0 <=? e then 1 else 10 ^ (- e) in
    let s := Z.max 0 (56 + Z.log2 den - Z.log2 num) in
    let q := (num * 2 ^ s) / den in
    let sticky := if (num * 2 ^ s) mod den =? 0 then 0 else 1 in
    binary_normalize prec emax
      (if neg then - (2 * q + sticky) else 2 * q + sticky) (- (s + 1)) neg.

Definition lower (c : ascii) : ascii :=
  if (65 <=? code c) && (code c <=? 90)
  then ascii_of_N (Z.to_N (code c + 32)) else c.

Definition list_ascii_eqb (a b : list ascii) : bool :=
  String.eqb (string_of_list_ascii a) (string_of_list_ascii b).

(** An optional exponent: [e] or [E], an optional sign, a digit part. *)
Definition exponent (l : list ascii) : option (Z * list ascii) :=
  match l with
  | c :: l' =>
      if Ascii.eqb (lower c) "e"%char then
        let '(neg, body) := sign l' in
        let '(ds, rest) := digitpart body in
        match ds with
        | [] => None
        | _ :: _ =>
            Some (if neg then - digits_value ds else digits_value ds, rest)
        end
      else Some (0, l)
  | [] => Some (0, l)
  end.

(** Blanks around, an optional sign, then [inf], [infinity] or [nan] in
    any case, or a decimal number: digits with an optional point (at least
    one digit before or after it) and an optional exponent. *)
Definition py_float (rt : Runtime) (s : string) : Result spec_float :=
  let '(neg, body) := sign (strip (number_text rt s)) in
  let word := map lower body in
  if list_ascii_eqb word (list_ascii_of_string "inf")
     || list_ascii_eqb word (list_ascii_of_string "infinity")
  then Ok (S754_infinity neg)
  else if list_ascii_eqb word (list_ascii_of_string "nan") then Ok S754_nan
  else
    let '(ip, r1) := digitpart body in
    let '(fp, r2) :=
      match r1 with
      | c :: r1' => if Ascii.eqb c "."%char then digitpart r1' else ([], r1)
      | [] => ([], r1)
      end in
    match ip ++ fp with
    | [] => Raise (could_not_convert_float s)
    | _ :: _ =>
        match exponent r2 with
        | Some (ex, []) =>
            Ok (decimal_to_float neg (digits_value (ip ++ fp))
                  (ex - Z.of_nat (List.length fp)))
        | _ => Raise (could_not_convert_float s)
        end
    end.

End Py.

(* ================================================================== *)
(** ** The asyncua library as the script sees it *)
(* ================================================================== *)

Module Ua.
Import Py.

(** The object [client.get_node(node_id)] returns. *)
Record Node : Type := mkNode { nodeid : string }.

(** The library calls the script makes. *)
Inductive Call : Type :=
| CClient (url : string)                    (* Client(url) *)
| CSetUser (username : option string)       (* client.set_user *)
| CSetPassword (password : option string)   (* client.set_password *)
| CConnect                                  (* client.connect *)
| CGetNode (node_id : string)               (* client.get_node *)
| CReadValue (n : Node)                     (* node.read_value *)
| CReadDataType (n : Node)        (* node.read_data_type_as_variant_type *)
| CWriteValue (n : Node) (v : PyValue)      (* node.write_value *)
| CDisconnect.                              (* client.disconnect *)

Inductive Level : Type := INFO | WARNING | ERROR.

(** What an invocation does, in program order: library calls and log
    records (the root logger is configured at level INFO, so all three
    levels used by the script are emitted). *)
Inductive Event : Type :=
| Called (c : Call)
| Logged (lvl : Level) (msg : fstring).

Definition Trace : Type := list Event.

(** The library and the server behind it, as a state machine over a state
    of the environment's choosing: each call answers with a value or
    raises, and moves the state. Building the client object sends nothing:
    it reads the URL and raises when it cannot (a URL [urlparse] rejects),
    so its answer depends on the URL alone. Setting the credentials on the
    client only stores its arguments. *)
Record Library (S : Type) : Type := mkLibrary {
  client : string -> Result unit;
  connect : S -> Result unit * S;
  get_node : string -> S -> Result unit * S;
  read_value : Node -> S -> Result PyValue * S;
  read_data_type_as_variant_type : Node -> S -> Result VariantType * S;
  write_value : Node -> PyValue -> S -> Result unit * S;
  disconnect : S -> Result unit * S
}.
Arguments client {S} _ _.
Arguments connect {S} _ _.
Arguments get_node {S} _ _ _.
Arguments read_value {S} _ _ _.
Arguments read_data_type_as_variant_type {S} _ _ _.
Arguments write_value {S} _ _ _ _.
Arguments disconnect {S} _ _.

(** Calls that exchange messages with the server; the others work on
    local objects. *)
Definition is_network (c : Call) : bool :=
  match c with
  | CConnect | CReadValue _ | CReadDataType _ | CWriteValue _ _
  | CDisconnect => true
  | CClient _ | CSetUser _ | CSetPassword _ | CGetNode _ => false
  end.

(** Requests about a node, local or remote. *)
Definition is_node_request (c : Call) : bool :=
  match c with
  | CGetNode _ | CReadValue _ | CReadDataType _ | CWriteValue _ _ => true
  | _ => false
  end.

Definition is_write (c : Call) : bool :=
  match c with CWriteValue _ _ => true | _ => false end.

Definition is_read_data_type (c : Call) : bool :=
  match c with CReadDataType _ => true | _ => false end.

Definition is_connect (c : Call) : bool :=
  match c with CConnect => true | _ => false end.

Definition is_disconnect (c : Call) : bool :=
  match c with CDisconnect => true | _ => false end.

(** The calls of a trace, in order. *)
Fixpoint calls (t : Trace) : list Call :=
  match t with
  | Called c :: t' => c :: calls t'
  | Logged _ _ :: t' => calls t'
  | [] => []
  end.

(** The log records of a trace at a level, in order. *)
Fixpoint logged (lvl : Level) (t : Trace) : list fstring :=
  match t with
  | Logged l m :: t' =>
      match l, lvl with
      | INFO, INFO | WARNING, WARNING | ERROR, ERROR => m :: logged lvl t'
      | _, _ => logged lvl t'
      end
  | Called _ :: t' => logged lvl t'
  | [] => []
  end.

Definition count (p : Call -> bool) (t : Trace) : nat :=
  List.length (filter p (calls t)).

Definition never (p : Call -> bool) (t : Trace) : Prop :=
  forallb (fun c => negb (p c)) (calls t) = true.

(** *** The monad of the script: library state and trace *)

Record World (S : Type) : Type := mkWorld { lib_state : S; trace : Trace }.
Arguments mkWorld {S} _ _.
Arguments lib_state {S} _.
Arguments trace {S} _.

Definition M (S A : Type) : Type := World S -> A * World S.

Definition ret {S A} (a : A) : M S A := fun w => (a, w).

Definition bind {S A B} (m : M S A) (k : A -> M S B) : M S B :=
  fun w => let '(a, w') := m w in k a w'.

Definition emit {S} (e : Event) : M S unit :=
  fun w => (tt, mkWorld (lib_state w) (trace w ++ [e])).

(** A library call: recorded, then answered by the library. *)
Definition invoke {S A} (c : Call) (h : S -> Result A * S) : M S (Result A) :=
  fun w =>
    let '(r, s') := h (lib_state w) in
    (r, mkWorld s' (trace w ++ [Called c])).

(** *** Statements *)

(** How a statement ends: it falls through to the next one, returns from
    the function (the script only ever returns [None]), or raises. *)
Inductive Completion : Type :=
| Normal
| Return
| Throw (e : Exn).

Definition Stmt (S : Type) : Type := M S Completion.

Definition pass {S} : Stmt S := ret Normal.
Definition return_ {S} : Stmt S := ret Return.

(** [s1; s2] *)
Definition seq {S} (s1 s2 : Stmt S) : Stmt S :=
  bind s1 (fun c => match c with Normal => s2 | _ => ret c end).

(** A statement that uses the value of an expression which may raise. *)
Definition eval {S A} (m : M S (Result A)) (k : A -> Stmt S) : Stmt S :=
  bind m (fun r => match r with Ok a => k a | Raise e => ret (Throw e) end).

(** An [except C as e: body] clause. *)
Record Clause (S : Type) : Type := mkClause {
  catches : Exn -> bool;
  handler : Exn -> Stmt S
}.
Arguments mkClause {S} _ _.
Arguments catches {S} _ _.
Arguments handler {S} _ _.

Fixpoint dispatch {S} (cs : list (Clause S)) (e : Exn) : Stmt S :=
  match cs with
  | c :: cs' => if catches c e then handler c e else dispatch cs' e
  | [] => ret (Throw e)
  end.

(** [try: body except ...]: the first clause whose class matches runs. *)
Definition try_except {S} (body : Stmt S) (cs : list (Clause S)) : Stmt S :=
  bind body (fun c =>
    match c with
    | Throw e => dispatch cs e
    | _ => ret c
    end).

(** [try: body finally: fin]: [fin] runs however [body] ends; when [fin]
    falls through, [body]'s ending stands, otherwise [fin]'s replaces it. *)
Definition try_finally {S} (body fin : Stmt S) : Stmt S :=
  bind body (fun c =>
  bind fin (fun f =>
    match f with
    | Normal => ret c
    | _ => ret f
    end)).

(** [log.info], [log.warning], [log.error] *)
Definition log {S} (lvl : Level) (msg : fstring) : Stmt S :=
  bind (emit (Logged lvl msg)) (fun _ => ret Normal).

(** A call whose result is not used. *)
Definition do_call {S} (c : Call) : Stmt S :=
  bind (emit (Called c)) (fun _ => ret Normal).

End Ua.

(* ================================================================== *)
(** ** The script *)
(* ================================================================== *)

Module Client.
Import Py Ua.

Declare Scope stmt_scope.
Delimit Scope stmt_scope with stmt.
Notation "s1 ;; s2" := (seq s1 s2)
  (at level 61, right associativity) : stmt_scope.
Notation "'call' x <- e ; k" := (eval e (fun x => k))
  (at level 61, x name, e at next level, right associativity) : stmt_scope.

Local Open Scope stmt_scope.

Definition fmap {A B} (f : A -> B) (r : Result A) : Result B :=
  match r with
  | Ok a => Ok (f a)
  | Raise e => Raise e
  end.

(** Truth value of an optional string: [None] and [""] are false. *)
Definition truthy (s : option string) : bool :=
  match s with
  | Some s => negb (String.eqb s "")
  | None => false
  end.

(** [str(n)] for an integer. *)
Definition str_of_int (n : Z) : string :=
  NilEmpty.string_of_int (Z.to_int n).

(** The fixed texts of the error records. *)
Definition credentials_required : fstring :=
  [Lit "Username and password must be provided for userpass authentication"].
Definition invalid_auth_type : fstring :=
  [Lit "Invalid authentication type. Exiting."].
Definition value_required : fstring :=
  [Lit "Value must be provided for write operation"].
Definition invalid_operation : fstring :=
  [Lit "Invalid operation. Please enter 'read' or 'write'."].
Definition connected : fstring := [Lit "Connected to OPC UA server"].
Definition disconnected : fstring := [Lit "Disconnected from OPC UA server"].

Section Script.

Context {S : Type}.
Variable lib : Library S.
Variable rt : Runtime.

Definition unsupported_data_type (data_type : VariantType) : Exn :=
  mkExn ValueError [Lit "Unsupported data type: "; FmtType data_type].

(** The [if]/[elif] chain of [convert_value_to_node_type] (lines 16-25):
    the conversion chosen by the data type of the node. *)
Definition convert_by_type (data_type : VariantType) (value : string)
  : Result PyValue :=
  if variant_in data_type [Int16; Int32; Int64] then
    fmap VInt (py_int rt value)
  else if variant_in data_type [Float; Double] then
    fmap VFloat (py_float rt value)
  else if variant_eqb data_type Boolean then
    fmap (fun n => VBool (py_bool_of_int n)) (py_int rt value)
  else if variant_eqb data_type String then
    Ok (VStr value)
  else Raise (unsupported_data_type data_type).

(** [convert_value_to_node_type(node, value)] (lines 11-25): the data type
    is asked of the node, then the value is converted. *)
Definition convert_value_to_node_type (node : Node) (value : string)
  : M S (Result PyValue) :=
  bind (invoke (CReadDataType node)
          (read_data_type_as_variant_type lib node))
    (fun r =>
       match r with
       | Raise e => ret (Raise e)
       | Ok data_type => ret (convert_by_type data_type value)
       end).

(** The body of the inner [try] of the write branch (lines 55-65). *)
Definition write_and_verify (node : Node) (node_id value : string) : Stmt S :=
  call converted_value <- convert_value_to_node_type node value ;
  log INFO [Lit "Attempting to write value "; Fmt converted_value;
            Lit " to node "; Fmt (VStr node_id)] ;;
  call _ <- invoke (CWriteValue node converted_value)
              (write_value lib node converted_value) ;
  log INFO [Lit "Updated value of node "; Fmt (VStr node_id);
            Lit " to "; Fmt converted_value] ;;
  call new_value <- invoke (CReadValue node) (read_value lib node) ;
  if py_eq new_value converted_value then
    log INFO [Lit "Verified: Value of node "; Fmt (VStr node_id);
              Lit " is now "; Fmt new_value]
  else
    log WARNING [Lit "Verification failed: Expected "; Fmt converted_value;
                 Lit ", but got "; Fmt new_value].

(** The body of the outer [try] (lines 42-71); the two handlers of the
    inner [try] are those of lines 66-69. *)
Definition operate (operation node_id : string) (value : option string)
  : Stmt S :=
  call _ <- invoke CConnect (connect lib) ;
  log INFO connected ;;
  if String.eqb operation "read" then
    call _ <- invoke (CGetNode node_id) (get_node lib node_id) ;
    call value <- invoke (CReadValue (mkNode node_id))
                    (read_value lib (mkNode node_id)) ;
    log INFO [Lit "Value of node "; Fmt (VStr node_id); Lit ": "; Fmt value]
  else if String.eqb operation "write" then
    match value with
    | None =>
        log ERROR value_required ;;
        return_
    | Some value =>
        call _ <- invoke (CGetNode node_id) (get_node lib node_id) ;
        try_except
          (write_and_verify (mkNode node_id) node_id value)
          [mkClause is_ValueError (fun ve =>
             log ERROR (Lit "Value conversion error: " :: exc_msg ve));
           mkClause is_Exception (fun e =>
             log ERROR (Lit "An error occurred while writing to the node: "
                          :: exc_msg e))]
    end
  else
    log ERROR invalid_operation.

(** [main(opc_ua_server_url, auth_type, username, password, operation,
    node_id, value=None)] (lines 27-77): the client object - built before
    the check of the credentials and outside the [try], so an exception of
    [Client(url)] leaves [main] at once - then the check of the
    credentials, then the [try] with its handler and its [finally]. *)
Definition main (opc_ua_server_url auth_type : string)
    (username password : option string) (operation node_id : string)
    (value : option string) : Stmt S :=
  call _ <- invoke (CClient opc_ua_server_url)
              (fun s => (client lib opc_ua_server_url, s)) ;
  (if String.eqb auth_type "userpass" then
     if truthy username && truthy password then
       do_call (CSetUser username) ;;
       do_call (CSetPassword password)
     else
       log ERROR credentials_required ;;
       return_
   else if negb (String.eqb auth_type "anonymous") then
     log ERROR invalid_auth_type ;;
     return_
   else pass) ;;
  try_finally
    (try_except
       (operate operation node_id value)
       [mkClause is_Exception (fun e =>
          log ERROR (Lit "An error occurred: " :: exc_msg e))])
    (call _ <- invoke CDisconnect (disconnect lib) ;
     log INFO disconnected).

End Script.

(** The namespace [parser.parse_args()] returns. *)
Record Args : Type := mkArgs {
  hostname : string;
  port : Z;
  path : string;
  auth_type : string;
  username : option string;
  password : option string;
  operation : string;
  node_id : string;
  value : option string
}.

(** The [choices] of [--auth-type] and of [--operation]: [parse_args]
    leaves the program before [main] runs unless both are met. *)
Definition accepted_by_parser (args : Args) : bool :=
  (String.eqb (auth_type args) "anonymous"
   || String.eqb (auth_type args) "userpass")
  && (String.eqb (operation args) "read"
      || String.eqb (operation args) "write").

(** [f"opc.tcp://{args.hostname}:{args.port}{args.path}"] *)
Definition opc_ua_server_url (args : Args) : string :=
  ("opc.tcp://" ++ hostname args ++ ":" ++ str_of_int (port args)
     ++ path args)%string.

(** [asyncio.run(main(...))] under [__main__], from the initial library
    state and an empty trace. *)
Definition run {S} (lib : Library S) (rt : Runtime) (s0 : S) (args : Args)
  : Completion * World S :=
  main lib rt (opc_ua_server_url args) (auth_type args) (username args)
    (password args) (operation args) (node_id args) (value args)
    (mkWorld s0 []).

(** The text given for each option on the command line, if any. How
    [argparse] finds these texts in [sys.argv] is left out. *)
Record CommandLine : Type := mkCommandLine {
  given_hostname : option string;
  given_port : option string;
  given_path : option string;
  given_auth_type : option string;
  given_username : option string;
  given_password : option string;
  given_operation : option string;
  given_node_id : option string;
  given_value : option string
}.

Definition or_default {A} (given : option A) (default : A) : A :=
  match given with
  | Some a => a
  | None => default
  end.

(** [x in choices] on strings. *)
Definition choice (x : string) (choices : list string) : bool :=
  existsb (String.eqb x) choices.

(** The port: [int] of the text given ([type=int]), 4840 by default. *)
Definition port_of (rt : Runtime) (given : option string) : Result Z :=
  match given with
  | Some text => py_int rt text
  | None => Ok 4840
  end.

(** [parser.parse_args()] for the options declared in lines 80-89: [None]
    when the parser reports an error and leaves the program - a required
    option is missing, a value is not among the [choices], or [int]
    rejects the text of the port. *)
Definition parse_args (rt : Runtime) (c : CommandLine) : option Args :=
  match given_auth_type c, given_operation c, given_node_id c with
  | Some auth, Some op, Some nid =>
      if choice auth ["anonymous"; "userpass"] && choice op ["read"; "write"]
      then
        match port_of rt (given_port c) with
        | Ok p =>
            Some (mkArgs (or_default (given_hostname c) "localhost") p
                    (or_default (given_path c) "/freeopcua/server/")
                    auth (given_username c) (given_password c) op nid
                    (given_value c))
        | Raise _ => None
        end
      else None
  | _, _, _ => None
  end.

(** The script from its command line: [None] when the parser leaves the
    program before [main] is called (lines 79-94). *)
Definition script {S} (lib : Library S) (rt : Runtime) (s0 : S)
    (c : CommandLine) : option (Completion * World S) :=
  option_map (run lib rt s0) (parse_args rt c).

(** What a run of the script did: nothing when the parser left the
    program before [main] was called. *)
Definition activity {S} (r : option (Completion * World S)) : Trace :=
  match r with
  | Some (_, w) => trace w
  | None => []
  end.

End Client.

(* ================================================================== *)
(** ** Vocabulary of the properties *)
(* ================================================================== *)

Module Spec.
Import Py Ua Client.

(** The guard [main] puts on the credentials before it connects. *)
Definition credentials_accepted (auth_type : string)
    (username password : option string) : bool :=
  if String.eqb auth_type "userpass" then truthy username && truthy password
  else String.eqb auth_type "anonymous".

(** The calls that store accepted credentials on the client. *)
Definition login (auth_type : string) (username password : option string)
  : Trace :=
  if String.eqb auth_type "userpass"
  then [Called (CSetUser username); Called (CSetPassword password)]
  else [].

(** What happens up to and including a successful [connect]. *)
Definition session_opened (url auth_type : string)
    (username password : option string) : Trace :=
  Called (CClient url) :: login auth_type username password
    ++ [Called CConnect; Logged INFO connected].

(** The [finally] block, given the answer of [disconnect]. *)
Definition teardown (r : Result unit) : Trace :=
  Called CDisconnect ::
  match r with
  | Ok _ => [Logged INFO disconnected]
  | Raise _ => []
  end.

(** How [main] ends when the [try] ended with [c] and [disconnect]
    answered [r]: an exception of [disconnect] replaces [c]. *)
Definition after_teardown (c : Completion) (r : Result unit) : Completion :=
  match r with
  | Ok _ => c
  | Raise e => Throw e
  end.

(** The data types [convert_value_to_node_type] has a branch for. *)
Definition has_conversion (t : VariantType) : bool :=
  variant_in t [Int16; Int32; Int64] || variant_in t [Float; Double]
  || variant_eqb t Boolean || variant_eqb t String.

(** The events before the first ERROR record. *)
Fixpoint before_error (t : Trace) : Trace :=
  match t with
  | Logged ERROR _ :: _ => []
  | e :: t' => e :: before_error t'
  | [] => []
  end.

(** An invocation fails before any network activity: the error is
    reported, and no network call precedes the first ERROR record. *)
Definition fails_before_network (msg : fstring) (t : Trace) : Prop :=
  In (Logged ERROR msg) t /\ never is_network (before_error t).

Definition is_client (c : Call) : bool :=
  match c with CClient _ => true | _ => false end.

(** [m] takes every world to one related to it by [R]. *)
Definition respects {S A} (R : World S -> World S -> Prop) (m : M S A)
  : Prop :=
  forall w, R w (snd (m w)).

(** The trace grew, and every call added satisfies [ok]. *)
Definition extended_by {S} (ok : Call -> bool) (w w' : World S) : Prop :=
  exists l, trace w' = trace w ++ l /\ forallb ok (calls l) = true.

(** [view] of the library state is what it was. *)
Definition same {S V} (view : S -> V) (w w' : World S) : Prop :=
  view (lib_state w') = view (lib_state w).

(** [m] makes no call but those satisfying [ok]. *)
Definition only {S A} (ok : Call -> bool) (m : M S A) : Prop :=
  respects (extended_by ok) m.

(** [m] leaves [view] of the library state as it found it. *)
Definition keeps {S A V} (view : S -> V) (m : M S A) : Prop :=
  respects (same view) m.

(** The two records the read-back of a write can leave. *)
Definition verified (nid : string) (nv : PyValue) : Event :=
  Logged INFO [Lit "Verified: Value of node "; Fmt (VStr nid);
               Lit " is now "; Fmt nv].

Definition verification_failed (cv nv : PyValue) : Event :=
  Logged WARNING [Lit "Verification failed: Expected "; Fmt cv;
                  Lit ", but got "; Fmt nv].

(** The calls of the read path. *)
Definition read_path_call (node_id : string) (c : Call) : bool :=
  match c with
  | CClient _ | CSetUser _ | CSetPassword _ | CConnect | CDisconnect => true
  | CGetNode id => String.eqb id node_id
  | CReadValue n => String.eqb (nodeid n) node_id
  | CReadDataType _ | CWriteValue _ _ => false
  end.

(** *** Vocabulary of the failure paths *)

(** What the handler of the outer [try] logs for [e] (lines 73-74): an
    exception outside [Exception] passes it by. *)
Definition outer_report (e : Exn) : Trace :=
  if is_Exception e
  then [Logged ERROR (Lit "An error occurred: " :: exc_msg e)]
  else [].

(** What the handlers of the inner [try] log for [e] (lines 66-69). *)
Definition inner_report (e : Exn) : Trace :=
  if is_ValueError e
  then [Logged ERROR (Lit "Value conversion error: " :: exc_msg e)]
  else if is_Exception e
  then [Logged ERROR (Lit "An error occurred while writing to the node: "
                        :: exc_msg e)]
  else [].

(** How a [try] ends whose body raised [e]. *)
Definition after_exception (e : Exn) : Completion :=
  if is_Exception e then Normal else Throw e.

(** The events after the first ERROR record. *)
Fixpoint after_error (t : Trace) : Trace :=
  match t with
  | Logged ERROR _ :: t' => t'
  | _ :: t' => after_error t'
  | [] => []
  end.

Definition is_read_value (c : Call) : bool :=
  match c with CReadValue _ => true | _ => false end.

Definition is_get_node (c : Call) : bool :=
  match c with CGetNode _ => true | _ => false end.

Definition is_credential_call (c : Call) : bool :=
  match c with CSetUser _ | CSetPassword _ => true | _ => false end.

(** A node request is about [node_id]; other calls are about no node. *)
Definition targets (node_id : string) (c : Call) : bool :=
  match c with
  | CGetNode id => String.eqb id node_id
  | CReadValue n | CReadDataType n | CWriteValue n _ =>
      String.eqb (nodeid n) node_id
  | _ => true
  end.

(** Node requests, then [disconnect] as the last call. *)
Fixpoint closes (l : list Call) : bool :=
  match l with
  | [] => false
  | [c] => is_disconnect c
  | c :: l' => is_node_request c && closes l'
  end.

(** Calls on local objects, then [connect], node requests, and
    [disconnect] as the last call. *)
Fixpoint bracketed (l : list Call) : bool :=
  match l with
  | [] => false
  | CConnect :: l' => closes l'
  | c :: l' => negb (is_network c) && negb (is_node_request c) && bracketed l'
  end.

Definition is_nan (v : PyValue) : bool :=
  match v with VFloat S754_nan => true | _ => false end.

(** The Python class of a converted value fits the data type of the
    node. *)
Definition fits (t : VariantType) (raw : string) (v : PyValue) : Prop :=
  match v with
  | VInt _ => variant_in t [Int16; Int32; Int64] = true
  | VFloat _ => variant_in t [Float; Double] = true
  | VBool _ => t = Boolean
  | VStr s => t = String /\ s = raw
  | VNone | VOther _ => False
  end.

End Spec.

(* ================================================================== *)
(** ** Test doubles for the library *)
(* ================================================================== *)

Module Fixture.
Import Py Ua Client.

(** An in-memory server: each known node has a data type and a value. *)
Definition Store : Type := list (string * (VariantType * PyValue)).

Fixpoint lookup (id : string) (st : Store) : option (VariantType * PyValue) :=
  match st with
  | (k, tv) :: st' => if String.eqb k id then Some tv else lookup id st'
  | [] => None
  end.

Fixpoint update (id : string) (v : PyValue) (st : Store) : Store :=
  match st with
  | (k, (t, old)) :: st' =>
      if String.eqb k id then (k, (t, v)) :: st'
      else (k, (t, old)) :: update id v st'
  | [] => []
  end.

Definition bad_node_id : Exn :=
  mkExn OtherException [Lit "BadNodeIdUnknown"].

Definition answer {A} (id : string) (st : Store)
    (f : VariantType * PyValue -> A) : Result A :=
  match lookup id st with
  | Some tv => Ok (f tv)
  | None => Raise bad_node_id
  end.

Definition invalid_ipv6_url : Exn := mkExn ValueError [Lit "Invalid IPv6 URL"].

Definition contains (c : ascii) (s : string) : bool :=
  existsb (Ascii.eqb c) (list_ascii_of_string s).

(** The client is not built from a URL with a square bracket that has no
    partner, which [urlparse] rejects in the host part. *)
Definition build_client (url : string) : Result unit :=
  if xorb (contains "["%char url) (contains "]"%char url)
  then Raise invalid_ipv6_url
  else Ok tt.

Definition memory : Library Store := {|
  client := build_client;
  connect := fun st => (Ok tt, st);
  get_node := fun _ st => (Ok tt, st);
  read_value := fun n st => (answer (nodeid n) st snd, st);
  read_data_type_as_variant_type := fun n st => (answer (nodeid n) st fst, st);
  write_value := fun n v st =>
    (answer (nodeid n) st (fun _ => tt), update (nodeid n) v st);
  disconnect := fun st => (Ok tt, st)
|}.

(** A server that acknowledges writes and keeps the old values. *)
Definition deaf : Library Store := {|
  client := build_client;
  connect := fun st => (Ok tt, st);
  get_node := fun _ st => (Ok tt, st);
  read_value := fun n st => (answer (nodeid n) st snd, st);
  read_data_type_as_variant_type := fun n st => (answer (nodeid n) st fst, st);
  write_value := fun n v st => (answer (nodeid n) st (fun _ => tt), st);
  disconnect := fun st => (Ok tt, st)
|}.

Definition connection_refused : Exn :=
  mkExn OtherException [Lit "Connection refused"].

(** A server nobody listens on: connecting fails, and so does closing the
    session that was never opened. *)
Definition unreachable : Library unit := {|
  client := build_client;
  connect := fun st => (Raise connection_refused, st);
  get_node := fun _ st => (Ok tt, st);
  read_value := fun _ st => (Raise connection_refused, st);
  read_data_type_as_variant_type := fun _ st => (Raise connection_refused, st);
  write_value := fun _ _ st => (Raise connection_refused, st);
  disconnect := fun st => (Ok tt, st)
|}.

(** Interpreter settings for the examples: the digit limit of CPython
    3.11, and a stand-in for the Unicode rewriting that turns every
    non-ASCII text into one no number is read from (the interpreter itself
    reads Unicode digits; no example uses non-ASCII text). *)
Definition cpython : Runtime := mkRuntime 4300 (fun _ => "?").

Definition plant : Store :=
  [("ns=2;i=2003", (Int32, VInt 42));
   ("ns=2;i=2004", (Boolean, VBool false));
   ("ns=2;i=2005", (Double, VFloat (S754_zero false)));
   ("ns=2;i=2006", (String, VStr "idle"));
   ("ns=2;i=2007", (UInt16, VInt 7))].

(** The in-memory server with faults: a call for which [fault] names an
    exception raises it and leaves the store alone. *)
Definition faulty (fault : Call -> option Exn) : Library Store := {|
  client := fun url =>
    match fault (CClient url) with
    | Some e => Raise e
    | None => client memory url
    end;
  connect := fun st =>
    match fault CConnect with
    | Some e => (Raise e, st)
    | None => connect memory st
    end;
  get_node := fun id st =>
    match fault (CGetNode id) with
    | Some e => (Raise e, st)
    | None => get_node memory id st
    end;
  read_value := fun n st =>
    match fault (CReadValue n) with
    | Some e => (Raise e, st)
    | None => read_value memory n st
    end;
  read_data_type_as_variant_type := fun n st =>
    match fault (CReadDataType n) with
    | Some e => (Raise e, st)
    | None => read_data_type_as_variant_type memory n st
    end;
  write_value := fun n v st =>
    match fault (CWriteValue n v) with
    | Some e => (Raise e, st)
    | None => write_value memory n v st
    end;
  disconnect := fun st =>
    match fault CDisconnect with
    | Some e => (Raise e, st)
    | None => disconnect memory st
    end
|}.

Definition timed_out : Exn := mkExn OtherException [Lit "TimeoutError"].
Definition interrupted : Exn := mkExn BaseExceptionOnly [Lit "CancelledError"].
Definition bad_argument : Exn := mkExn ValueError [Lit "BadTypeMismatch"].

(** One kind of call fails with [e], the rest works. *)
Definition failing (p : Call -> bool) (e : Exn) : Library Store :=
  faulty (fun c => if p c then Some e else None).

Definition endpoint : string := "opc.tcp://localhost:4840/freeopcua/server/".

(** The URL of [--hostname "["], which the client cannot be built from. *)
Definition broken_endpoint : string := "opc.tcp://[:4840/freeopcua/server/".

(** [plant] once 17 is stored in its first node. *)
Definition plant17 : Store := update "ns=2;i=2003" (VInt 17) plant.

End Fixture.

(* ================================================================== *)
(** ** Properties of the built-ins *)
(* ================================================================== *)

Module PyFacts.
Import Py.

Example int_examples :
  forall rt,
    py_int rt "17" = Ok 17 /\ py_int rt " -3 " = Ok (-3)
    /\ py_int rt "+1_000" = Ok 1000 /\ py_int rt "00012" = Ok 12
    /\ py_int rt "1__0" = Raise (invalid_int_literal "1__0")
    /\ py_int rt "1.0" = Raise (invalid_int_literal "1.0")
    /\ py_int rt "" = Raise (invalid_int_literal "")
    /\ py_int rt "abc" = Raise (invalid_int_literal "abc").
Proof. intro rt. repeat split; reflexivity. Qed.

Example float_examples :
  forall rt,
    py_float rt "0.1" = Ok (S754_finite false 7205759403792794 (-56))
    /\ py_float rt "1e23" = Ok (S754_finite false 5960464477539062 24)
    /\ py_float rt " 1.5 " = Ok (S754_finite false 6755399441055744 (-52))
    /\ py_float rt "-Infinity" = Ok (S754_infinity true)
    /\ py_float rt "1e400" = Ok (S754_infinity false)
    /\ py_float rt "2.5e-324" = Ok (S754_finite false 1 (-1074))
    /\ py_float rt "-0" = Ok (S754_zero true)
    /\ py_float rt "1e" = Raise (could_not_convert_float "1e")
    /\ py_float rt "1_.5" = Raise (could_not_convert_float "1_.5")
    /\ py_float rt "abc" = Raise (could_not_convert_float "abc").
Proof. intro rt. repeat split; vm_compute; reflexivity. Qed.

Example eq_examples :
  py_eq (VBool true) (VInt 1) = true
  /\ py_eq (VInt 1) (VFloat (S754_finite false 4503599627370496 (-52))) = true
  /\ py_eq (VFloat S754_nan) (VFloat S754_nan) = false
  /\ py_eq (VInt 0) (VFloat (S754_zero true)) = true
  /\ py_eq (VStr "1") (VInt 1) = false
  /\ py_eq VNone (VInt 0) = false.
Proof. repeat split; reflexivity. Qed.

(** The limit on digits: a misplaced underscore is reported before it,
    other text after the digits only after it. *)
Example digit_limit_examples :
  let rt := mkRuntime 640 (fun s => s) in
  let ones := String.concat "" (repeat "1" 641) in
  py_int rt ones = Raise (int_too_long 640 641)
  /\ py_int rt (ones ++ "x") = Raise (int_too_long 640 641)
  /\ py_int rt (ones ++ "_") = Raise (invalid_int_literal (ones ++ "_"))
  /\ py_int rt (ones ++ "__1") = Raise (invalid_int_literal (ones ++ "__1"))
  /\ py_int rt (ones ++ "_1") = Raise (int_too_long 640 642)
  /\ py_int (mkRuntime 0 (fun s => s)) (ones ++ "_1")
     = Ok (digits_value (repeat 1 642)).
Proof. repeat split; vm_compute; reflexivity. Qed.

(** The two errors of [int] on a string, and the one of [float]. *)
Lemma py_int_raises rt s e :
  py_int rt s = Raise e ->
  e = invalid_int_literal s
  \/ exists n, e = int_too_long (int_max_str_digits rt) n.
Proof.
  unfold py_int.
  destruct (sign _) as [neg body], (digitpart body) as [ds rest].
  destruct ds; [intros [= <-]; now left|].
  destruct (underscore_next rest); [intros [= <-]; now left|].
  destruct (_ && _); [intros [= <-]; right; eauto|].
  destruct rest; [discriminate|intros [= <-]; now left].
Qed.

Lemma py_float_raises rt s e :
  py_float rt s = Raise e -> e = could_not_convert_float s.
Proof.
  unfold py_float.
  destruct (sign _) as [neg body].
  destruct (_ || _); [discriminate|].
  destruct (list_ascii_eqb _ _); [discriminate|].
  destruct (digitpart body) as [ip r1].
  destruct (match r1 with [] => _ | _ => _ end) as [fp r2].
  destruct (ip ++ fp); [intros [= <-]; reflexivity|].
  destruct (exponent r2) as [[ex [|c r3]]|];
    solve [discriminate | intros [= <-]; reflexivity].
Qed.

(** Whatever [int] raises on a string is a [ValueError]. *)
Lemma py_int_raises_ValueError rt s e :
  py_int rt s = Raise e -> exc_class e = ValueError.
Proof.
  intros H. apply py_int_raises in H as [->|[n ->]]; reflexivity.
Qed.

(** Whatever [float] raises on a string is a [ValueError]. *)
Lemma py_float_raises_ValueError rt s e :
  py_float rt s = Raise e -> exc_class e = ValueError.
Proof.
  intros H. apply py_float_raises in H as ->. reflexivity.
Qed.

End PyFacts.

(* ================================================================== *)
(** ** Properties of the monad and of the statements *)
(* ================================================================== *)

Module UaFacts.
Import Py Ua Spec.

Lemma calls_app (a b : Trace) : calls (a ++ b) = calls a ++ calls b.
Proof.
  induction a as [|[c|lvl msg] a IH]; simpl; now rewrite ?IH.
Qed.

Lemma count_app p (a b : Trace) : (count p (a ++ b) = count p a + count p b)%nat.
Proof.
  unfold count. now rewrite calls_app, filter_app, length_app.
Qed.

Lemma never_app p (a b : Trace) : never p a -> never p b -> never p (a ++ b).
Proof.
  unfold never. intros Ha Hb. rewrite calls_app, forallb_app.
  now rewrite Ha, Hb.
Qed.

(** Calls restricted to [ok] never satisfy a [p] that [ok] excludes. *)
Lemma forallb_never ok p (t : Trace) :
  (forall c, ok c = true -> p c = false) ->
  forallb ok (calls t) = true -> never p t.
Proof.
  intros Hex H. unfold never. rewrite forallb_forall in *.
  intros c Hc. now rewrite (Hex c (H c Hc)).
Qed.

(** *** Statements respect any preorder their primitives respect *)

Section Respects.

Context {S : Type}.
Variable R : World S -> World S -> Prop.
Hypothesis R_refl : forall w, R w w.
Hypothesis R_trans : forall a b c, R a b -> R b c -> R a c.

Lemma respects_ret A (a : A) : respects R (@ret S A a).
Proof. intro w. apply R_refl. Qed.

Lemma respects_bind A B (m : M S A) (k : A -> M S B) :
  respects R m -> (forall a, respects R (k a)) -> respects R (bind m k).
Proof.
  intros Hm Hk w. unfold bind. specialize (Hm w).
  destruct (m w) as [a w1]. simpl in Hm.
  eapply R_trans; [exact Hm|apply Hk].
Qed.

Lemma respects_seq (s1 s2 : Stmt S) :
  respects R s1 -> respects R s2 -> respects R (seq s1 s2).
Proof.
  intros H1 H2. apply respects_bind; [exact H1|].
  intros [| |e]; auto using respects_ret.
Qed.

Lemma respects_eval A (m : M S (Result A)) (k : A -> Stmt S) :
  respects R m -> (forall a, respects R (k a)) -> respects R (eval m k).
Proof.
  intros Hm Hk. apply respects_bind; [exact Hm|].
  intros [a|e]; auto using respects_ret.
Qed.

Lemma respects_dispatch (cs : list (Clause S)) e :
  Forall (fun c => forall e, respects R (handler c e)) cs ->
  respects R (dispatch cs e).
Proof.
  induction 1 as [|c cs Hc _ IH]; simpl.
  - apply respects_ret.
  - destruct (catches c e); [apply Hc|exact IH].
Qed.

Lemma respects_try_except (body : Stmt S) cs :
  respects R body ->
  Forall (fun c => forall e, respects R (handler c e)) cs ->
  respects R (try_except body cs).
Proof.
  intros Hb Hcs. apply respects_bind; [exact Hb|].
  intros [| |e]; auto using respects_ret, respects_dispatch.
Qed.

Lemma respects_try_finally (body fin : Stmt S) :
  respects R body -> respects R fin -> respects R (try_finally body fin).
Proof.
  intros Hb Hf. apply respects_bind; [exact Hb|].
  intros c. apply respects_bind; [exact Hf|].
  intros [| |e]; apply respects_ret.
Qed.

Lemma respects_log lvl msg :
  respects R (emit (Logged lvl msg)) -> respects R (@log S lvl msg).
Proof.
  intros H. apply respects_bind; [exact H|]. intros _. apply respects_ret.
Qed.

Lemma respects_do_call c :
  respects R (emit (Called c)) -> respects R (@do_call S c).
Proof.
  intros H. apply respects_bind; [exact H|]. intros _. apply respects_ret.
Qed.

End Respects.

(** *** The two preorders used below *)

Lemma extended_by_refl {S} ok (w : World S) : extended_by ok w w.
Proof. exists []. now rewrite app_nil_r. Qed.

Lemma extended_by_trans {S} ok (a b c : World S) :
  extended_by ok a b -> extended_by ok b c -> extended_by ok a c.
Proof.
  intros [l1 [E1 O1]] [l2 [E2 O2]]. exists (l1 ++ l2). split.
  - now rewrite E2, E1, app_assoc.
  - now rewrite calls_app, forallb_app, O1, O2.
Qed.

Lemma only_emit_log {S} ok lvl msg : only ok (@emit S (Logged lvl msg)).
Proof. intro w. now exists [Logged lvl msg]. Qed.

Lemma only_emit_call {S} ok c : ok c = true -> only ok (@emit S (Called c)).
Proof. intros H w. exists [Called c]. simpl. now rewrite H. Qed.

Lemma only_invoke {S A} ok c (h : S -> Result A * S) :
  ok c = true -> only ok (invoke c h).
Proof.
  intros H w. exists [Called c]. unfold invoke.
  destruct (h (lib_state w)) as [r s']. simpl. now rewrite H.
Qed.

Lemma same_refl {S V} (view : S -> V) (w : World S) : same view w w.
Proof. reflexivity. Qed.

Lemma same_trans {S V} (view : S -> V) (a b c : World S) :
  same view a b -> same view b c -> same view a c.
Proof. unfold same. congruence. Qed.

Lemma keeps_emit {S V} (view : S -> V) e : keeps view (@emit S e).
Proof. intro w. reflexivity. Qed.

Lemma keeps_invoke {S A V} (view : S -> V) c (h : S -> Result A * S) :
  (forall s, view (snd (h s)) = view s) -> keeps view (invoke c h).
Proof.
  intros H w. unfold same, invoke. specialize (H (lib_state w)).
  destruct (h (lib_state w)) as [r s']. exact H.
Qed.

End UaFacts.

(* ================================================================== *)
(** ** Properties of the script *)
(* ================================================================== *)

Module Properties.
Import Py Ua Client Spec UaFacts Fixture.

Local Open Scope stmt_scope.

(** *** The read path, whatever preorder its calls respect *)

Section ReadPath.

Context {S : Type}.
Variable lib : Library S.
Variable rt : Runtime.
Variable R : World S -> World S -> Prop.
Variable node_id : string.
Hypothesis R_refl : forall w, R w w.
Hypothesis R_trans : forall a b c, R a b -> R b c -> R a c.
Hypothesis R_log : forall lvl msg, respects R (emit (Logged lvl msg)).
Hypothesis R_client :
  forall url, respects R (invoke (CClient url) (fun s => (client lib url, s))).
Hypothesis R_user : forall u, respects R (emit (Called (CSetUser u))).
Hypothesis R_password : forall p, respects R (emit (Called (CSetPassword p))).
Hypothesis R_connect : respects R (invoke CConnect (connect lib)).
Hypothesis R_get_node :
  respects R (invoke (CGetNode node_id) (get_node lib node_id)).
Hypothesis R_read_value :
  respects R (invoke (CReadValue (mkNode node_id))
                (read_value lib (mkNode node_id))).
Hypothesis R_disconnect : respects R (invoke CDisconnect (disconnect lib)).

Create HintDb resp.
Local Hint Resolve respects_ret respects_seq respects_eval respects_log
  respects_do_call respects_try_except respects_try_finally : resp.

Lemma read_operate_respects value :
  respects R (operate lib rt "read" node_id value).
Proof.
  unfold operate. simpl String.eqb. cbv iota. auto 8 with resp.
Qed.

Lemma read_main_respects url auth_type username password value :
  respects R (main lib rt url auth_type username password "read" node_id value).
Proof.
  unfold main.
  apply respects_eval; auto. intros _.
  apply respects_seq; auto.
  - destruct (String.eqb auth_type "userpass");
      [destruct (truthy username && truthy password)
      |destruct (negb (String.eqb auth_type "anonymous"))];
      unfold pass, return_; auto 6 with resp.
  - apply respects_try_finally; auto 6 with resp.
    apply respects_try_except; auto using read_operate_respects.
    repeat constructor. intro e. simpl. auto with resp.
Qed.

End ReadPath.

(** *** Two runs against the in-memory server *)

Example read_scenario :
  main memory cpython endpoint "anonymous" None None "read" "ns=2;i=2003" None
    (mkWorld plant [])
  = (Normal,
     mkWorld plant
       [Called (CClient endpoint); Called CConnect; Logged INFO connected;
        Called (CGetNode "ns=2;i=2003");
        Called (CReadValue (mkNode "ns=2;i=2003"));
        Logged INFO [Lit "Value of node "; Fmt (VStr "ns=2;i=2003");
                     Lit ": "; Fmt (VInt 42)];
        Called CDisconnect; Logged INFO disconnected]).
Proof. reflexivity. Qed.

Example unreachable_scenario :
  main unreachable cpython endpoint "anonymous" None None "write"
    "ns=2;i=2003" (Some "17") (mkWorld tt [])
  = (Normal,
     mkWorld tt
       [Called (CClient endpoint); Called CConnect;
        Logged ERROR [Lit "An error occurred: "; Lit "Connection refused"];
        Called CDisconnect; Logged INFO disconnected]).
Proof. reflexivity. Qed.

(** *** Symbolic execution of the script *)

(** Comparisons of string literals are decided. *)
Ltac literals :=
  repeat match goal with
  | |- context [String.eqb ?a ?b] =>
      let v := eval vm_compute in (String.eqb a b) in
      lazymatch v with
      | true => change (String.eqb a b) with true
      | false => change (String.eqb a b) with false
      end
  end.

Ltac exec :=
  literals;
  cbv beta iota zeta delta
    [main operate write_and_verify convert_value_to_node_type Client.run
     bind ret seq eval try_except try_finally dispatch log do_call emit
     invoke pass return_ lib_state trace catches handler app fst snd
     session_opened teardown after_teardown login
     connected disconnected credentials_required invalid_auth_type
     value_required invalid_operation negb andb orb].

(** Case analysis on the next test or library answer the run waits for. *)
Ltac branch :=
  match goal with
  | |- context [match ?x with _ => _ end] =>
      lazymatch x with
      | context [match _ with _ => _ end] => fail
      | _ => destruct x eqn:?
      end
  end.

(** Every path of the run. *)
Ltac explore := exec; repeat (branch; exec).

(** The run goes on with an answer the hypothesis [H] gives. *)
Ltac given H := rewrite H; exec.

(** The run goes on in the handler of a known exception. *)
Ltac caught :=
  cbv [is_ValueError is_Exception exc_class exc_msg unsupported_data_type];
  exec.

(** The start of [main] when the client is built ([Hb]) and the
    credentials are accepted ([Hc]): both ways of being accepted, up to the
    first answer of the server. *)
Ltac accepted Hb Hc :=
  unfold main, credentials_accepted, session_opened, login in *;
  rewrite Hb;
  match type of Hc with
  | context [String.eqb ?a "userpass"] => destruct (String.eqb a "userpass")
  end;
  rewrite Hc; exec.

(** C1 (as amended): the session is disconnected exactly once on every
    exit path of an invocation whose client object is built and whose
    credentials pass the check of [main], whatever the operation and
    whatever fails afterwards (connecting, the operation, the conversion,
    or disconnecting itself); when [Client(url)] raises, or when the
    credentials are rejected, [main] ends before the [try], and the
    session is neither connected nor disconnected. *)
Theorem disconnects_once_iff_credentials_accepted :
  forall (S : Type) (lib : Library S) (rt : Runtime) (s0 : S)
         (url auth : string) (user pw : option string)
         (op nid : string) (val : option string),
    let t := trace (snd (main lib rt url auth user pw op nid val
                           (mkWorld s0 []))) in
    let expected :=
      match client lib url with
      | Ok _ => if credentials_accepted auth user pw then 1 else 0
      | Raise _ => 0
      end%nat in
    count is_disconnect t = expected /\ count is_connect t = expected.
Proof.
  intros. subst t expected. unfold credentials_accepted.
  explore; split; reflexivity.
Qed.

(** Both ways of ending before the [try] occur: a URL the client cannot
    be built from, with credentials that would be accepted, and a missing
    password. *)
Example ends_before_the_try :
  main memory cpython broken_endpoint "anonymous" None None "read"
    "ns=2;i=2003" None (mkWorld plant [])
  = (Throw invalid_ipv6_url, mkWorld plant [Called (CClient broken_endpoint)])
  /\ main memory cpython endpoint "userpass" (Some "operator") None "read"
       "ns=2;i=2003" None (mkWorld plant [])
     = (Return,
        mkWorld plant
          [Called (CClient endpoint); Logged ERROR credentials_required]).
Proof. split; reflexivity. Qed.

(** C1, as stated, fails: with [userpass] and no password [main] returns
    before the [try], so the [finally] that disconnects never runs. *)
Lemma rejected_credentials_skip_disconnect :
  count is_disconnect
    (trace (snd (main memory cpython endpoint "userpass" (Some "operator")
                   None "read" "ns=2;i=2003" None (mkWorld plant []))))
  <> 1%nat.
Proof. vm_compute. discriminate. Qed.

Lemma truthy_false_iff s : truthy s = false <-> s = None \/ s = Some "".
Proof.
  destruct s as [s|]; simpl; [|tauto].
  rewrite negb_false_iff, String.eqb_eq.
  split; [intros ->; now right|intros [H|[= ->]]; [discriminate H|reflexivity]].
Qed.

(** C5 (as amended): with [userpass] and a username or password that is
    missing or empty, no connection attempt and no other network call is
    made, and the library state is untouched. When the client object is
    built, [main] reports the error and returns at once; when
    [Client(url)] raises, that exception leaves [main] instead and nothing
    is logged. *)
Theorem missing_credentials_fail_before_connecting :
  forall (S : Type) (lib : Library S) (rt : Runtime) (s0 : S)
         (url : string) (user pw : option string)
         (op nid : string) (val : option string),
    truthy user = false \/ truthy pw = false ->
    let r := main lib rt url "userpass" user pw op nid val (mkWorld s0 []) in
    match client lib url with
    | Ok _ =>
        r = (Return,
             mkWorld s0
               [Called (CClient url); Logged ERROR credentials_required])
        /\ fails_before_network credentials_required (trace (snd r))
    | Raise e =>
        r = (Throw e, mkWorld s0 [Called (CClient url)])
    end
    /\ never is_network (trace (snd r))
    /\ count is_connect (trace (snd r)) = 0%nat.
Proof.
  intros S lib rt s0 url user pw op nid val H r. subst r.
  assert (E : truthy user && truthy pw = false)
    by (destruct H as [-> | ->]; [reflexivity | apply andb_false_r]).
  unfold main. simpl String.eqb. cbv iota. rewrite E. exec.
  destruct (client lib url) as [[]|e]; exec; repeat split.
  simpl. auto.
Qed.

Lemma missing_credentials_witness :
  (truthy (Some "") = false \/ truthy (Some "secret") = false)
  /\ let r := main memory cpython endpoint "userpass" (Some "") (Some "secret")
                "write" "ns=2;i=2003" (Some "17") (mkWorld plant []) in
     match client memory endpoint with
     | Ok _ =>
         r = (Return,
              mkWorld plant
                [Called (CClient endpoint);
                 Logged ERROR credentials_required])
         /\ fails_before_network credentials_required (trace (snd r))
     | Raise e =>
         r = (Throw e, mkWorld plant [Called (CClient endpoint)])
     end
     /\ never is_network (trace (snd r))
     /\ count is_connect (trace (snd r)) = 0%nat.
Proof.
  split; [left; reflexivity|].
  apply (missing_credentials_fail_before_connecting Store memory cpython plant
           endpoint (Some "") (Some "secret") "write" "ns=2;i=2003"
           (Some "17")).
  left; reflexivity.
Defined.

(** C5, as stated, fails: with [--hostname "["] the client cannot be
    built, and [main] raises from line 28, before it looks at the
    credentials - no credentials error is reported. *)
Lemma unbuilt_client_hides_missing_credentials :
  ~ fails_before_network credentials_required
      (trace (snd (Client.run memory cpython plant
                     (mkArgs "[" 4840 "/freeopcua/server/" "userpass"
                        (Some "operator") None "read" "ns=2;i=2003" None)))).
Proof. intros [H _]. vm_compute in H. intuition discriminate. Qed.

(** C2 (as amended): a write without a value is rejected inside the
    [try], after the connection: once the credentials are accepted and
    [connect] succeeds, the error is reported next, no node is fetched,
    read or written, and the session is closed. *)
Theorem write_without_value_fails_after_connecting :
  forall (S : Type) (lib : Library S) (rt : Runtime) (s0 s1 : S)
         (url auth : string) (user pw : option string) (nid : string),
    client lib url = Ok tt ->
    credentials_accepted auth user pw = true ->
    connect lib s0 = (Ok tt, s1) ->
    let r := main lib rt url auth user pw "write" nid None (mkWorld s0 []) in
    trace (snd r)
      = session_opened url auth user pw
          ++ Logged ERROR value_required :: teardown (fst (disconnect lib s1))
    /\ fst r = after_teardown Return (fst (disconnect lib s1))
    /\ never is_node_request (trace (snd r)).
Proof.
  intros S lib rt s0 s1 url auth user pw nid Hb Hc Hconn r. subst r.
  accepted Hb Hc; given Hconn; destruct (disconnect lib s1) as [[[]|e] s2];
    repeat split; reflexivity.
Qed.

Lemma write_without_value_witness :
  client memory endpoint = Ok tt
  /\ credentials_accepted "anonymous" None None = true
  /\ connect memory plant = (Ok tt, plant)
  /\ let r := main memory cpython endpoint "anonymous" None None "write"
                "ns=2;i=2003" None (mkWorld plant []) in
     trace (snd r)
       = session_opened endpoint "anonymous" None None
           ++ Logged ERROR value_required
              :: teardown (fst (disconnect memory plant))
     /\ fst r = after_teardown Return (fst (disconnect memory plant))
     /\ never is_node_request (trace (snd r)).
Proof.
  split; [reflexivity|].
  split; [reflexivity|]. split; [reflexivity|].
  apply (write_without_value_fails_after_connecting Store memory cpython
           plant plant endpoint "anonymous" None None "ns=2;i=2003");
    reflexivity.
Defined.

(** C2, as stated, fails: the connection is made before the missing value
    is noticed. *)
Lemma write_without_value_connects_first :
  ~ fails_before_network value_required
      (trace (snd (main memory cpython endpoint "anonymous" None None "write"
                     "ns=2;i=2003" None (mkWorld plant [])))).
Proof. intros [_ H]. vm_compute in H. discriminate H. Qed.

(** Called with an operation other than [read] and [write] - which the
    command line cannot do - [main] takes the last branch of the [try],
    after the connection: the error is reported, no node is fetched, read
    or written, and the session is closed (lines 70-71). *)
Lemma unknown_operation_fails_after_connecting :
  forall (S : Type) (lib : Library S) (rt : Runtime) (s0 s1 : S)
         (url auth : string) (user pw : option string)
         (op nid : string) (val : option string),
    op <> "read" -> op <> "write" ->
    client lib url = Ok tt ->
    credentials_accepted auth user pw = true ->
    connect lib s0 = (Ok tt, s1) ->
    let r := main lib rt url auth user pw op nid val (mkWorld s0 []) in
    trace (snd r)
      = session_opened url auth user pw
          ++ Logged ERROR invalid_operation
             :: teardown (fst (disconnect lib s1))
    /\ fst r = after_teardown Normal (fst (disconnect lib s1))
    /\ never is_node_request (trace (snd r)).
Proof.
  intros S lib rt s0 s1 url auth user pw op nid val Hr Hw Hb Hc Hconn r.
  subst r. apply String.eqb_neq in Hr, Hw.
  accepted Hb Hc; given Hconn; given Hr; given Hw;
    destruct (disconnect lib s1) as [[[]|e] s2]; repeat split; reflexivity.
Qed.

(** C3: an invocation whose operation is neither [read] nor [write] ends
    in the parser, before [main] is called: the [choices] of
    [--operation] turn it down, whatever the other options are, so no
    client is built and no connect, read or write request is issued
    (lines 87, 91, 94). *)
Theorem unknown_operation_is_rejected_by_the_parser :
  forall (S : Type) (lib : Library S) (rt : Runtime) (s0 : S)
         (c : CommandLine) (op : string),
    given_operation c = Some op ->
    op <> "read" -> op <> "write" ->
    parse_args rt c = None
    /\ script lib rt s0 c = None
    /\ activity (script lib rt s0 c) = [].
Proof.
  intros S lib rt s0 c op Hop Hr Hw.
  apply String.eqb_neq in Hr, Hw.
  assert (E : parse_args rt c = None).
  { unfold parse_args. rewrite Hop.
    destruct (given_auth_type c) as [auth|]; [|reflexivity].
    destruct (given_node_id c) as [nid|]; [|reflexivity].
    unfold choice at 2. simpl existsb. rewrite Hr, Hw.
    now rewrite andb_false_r. }
  unfold script. rewrite E. repeat split.
Qed.

Lemma unknown_operation_witness :
  let c := mkCommandLine None None None (Some "anonymous") None None
             (Some "delete") (Some "ns=2;i=2003") None in
  given_operation c = Some "delete"
  /\ "delete" <> "read" /\ "delete" <> "write"
  /\ parse_args cpython c = None
  /\ script memory cpython plant c = None
  /\ activity (script memory cpython plant c) = [].
Proof.
  intro c. split; [reflexivity|]. split; [discriminate|].
  split; [discriminate|].
  apply (unknown_operation_is_rejected_by_the_parser Store memory cpython
           plant c "delete"); solve [reflexivity | discriminate].
Defined.

(** *** The conversion helper *)

(** The types with a conversion are the seven the helper names. *)
Lemma has_conversion_iff t :
  has_conversion t = true
  <-> In t [Int16; Int32; Int64; Float; Double; Boolean; String].
Proof.
  split.
  - destruct t; intro H; try discriminate H; simpl; tauto.
  - simpl. intros [<-|[<-|[<-|[<-|[<-|[<-|[<-|[]]]]]]]]; reflexivity.
Qed.

(** Without a conversion for the type, the chain ends in its [else]. *)
Lemma convert_by_type_unsupported rt t value :
  has_conversion t = false ->
  convert_by_type rt t value = Raise (unsupported_data_type t).
Proof.
  unfold has_conversion, convert_by_type. intro H.
  destruct (variant_in t [Int16; Int32; Int64]); [discriminate H|].
  destruct (variant_in t [Float; Double]); [discriminate H|].
  destruct (variant_eqb t Boolean); [discriminate H|].
  destruct (variant_eqb t String); [discriminate H|reflexivity].
Qed.

(** The error of the [else] is raised for no type with a conversion: what
    [int] and [float] raise reads differently. *)
Lemma convert_by_type_unsupported_iff rt t value :
  convert_by_type rt t value = Raise (unsupported_data_type t)
  <-> has_conversion t = false.
Proof.
  split; [|apply convert_by_type_unsupported].
  unfold has_conversion, convert_by_type.
  destruct (variant_in t [Int16; Int32; Int64]).
  { destruct (py_int rt value) as [n|e] eqn:E; [discriminate|].
    apply PyFacts.py_int_raises in E as [->|[n ->]]; discriminate. }
  destruct (variant_in t [Float; Double]).
  { destruct (py_float rt value) as [f|e] eqn:E; [discriminate|].
    apply PyFacts.py_float_raises in E as ->. discriminate. }
  destruct (variant_eqb t Boolean).
  { destruct (py_int rt value) as [n|e] eqn:E; [discriminate|].
    apply PyFacts.py_int_raises in E as [->|[n ->]]; discriminate. }
  destruct (variant_eqb t String); [discriminate|reflexivity].
Qed.

Example conversion_examples :
  convert_by_type cpython Int32 "17" = Ok (VInt 17)
  /\ convert_by_type cpython Int32 "abc" = Raise (invalid_int_literal "abc")
  /\ convert_by_type cpython Int32 "12.5" = Raise (invalid_int_literal "12.5")
  /\ convert_by_type cpython Double "12.5"
     = Ok (VFloat (S754_finite false 7036874417766400 (-49)))
  /\ convert_by_type cpython Double "abc"
     = Raise (could_not_convert_float "abc")
  /\ convert_by_type cpython Boolean "2" = Ok (VBool true)
  /\ convert_by_type cpython Boolean "true"
     = Raise (invalid_int_literal "true")
  /\ convert_by_type cpython String "abc" = Ok (VStr "abc")
  /\ convert_by_type cpython UInt32 "17"
     = Raise (unsupported_data_type UInt32).
Proof. repeat split; vm_compute; reflexivity. Qed.

(** A failed conversion of a numeric type is a [ValueError]. *)
Lemma convert_by_type_numeric_failure rt t value e :
  variant_in t [Int16; Int32; Int64] = true /\ py_int rt value = Raise e
  \/ variant_in t [Float; Double] = true /\ py_float rt value = Raise e ->
  convert_by_type rt t value = Raise e /\ is_ValueError e = true.
Proof.
  unfold convert_by_type, is_ValueError.
  intros [[Ht He]|[Ht He]].
  - rewrite Ht, He. now rewrite (PyFacts.py_int_raises_ValueError _ _ _ He).
  - assert (variant_in t [Int16; Int32; Int64] = false) as ->
      by (destruct t; try reflexivity; discriminate Ht).
    rewrite Ht, He.
    now rewrite (PyFacts.py_float_raises_ValueError _ _ _ He).
Qed.

(** The helper makes one call, whatever comes of it: it asks the node for
    its data type. *)
Lemma convert_asks_data_type_once {S} (lib : Library S) rt node value w :
  trace (snd (convert_value_to_node_type lib rt node value w))
  = trace w ++ [Called (CReadDataType node)].
Proof.
  unfold convert_value_to_node_type, bind, invoke.
  destruct (read_data_type_as_variant_type lib node (lib_state w))
    as [[dt|e] s']; reflexivity.
Qed.

(** C4: when the node of a write reports a data type the helper has no
    conversion for, the helper raises the error that carries this type;
    [main] reports it as a conversion error, never calls [write_value],
    and closes the session. *)
Theorem unsupported_type_aborts_write :
  forall (S : Type) (lib : Library S) (rt : Runtime) (s0 s1 s2 s3 : S)
         (url auth : string) (user pw : option string) (nid raw : string)
         (dt : VariantType),
    client lib url = Ok tt ->
    credentials_accepted auth user pw = true ->
    connect lib s0 = (Ok tt, s1) ->
    get_node lib nid s1 = (Ok tt, s2) ->
    read_data_type_as_variant_type lib (mkNode nid) s2 = (Ok dt, s3) ->
    has_conversion dt = false ->
    let r := main lib rt url auth user pw "write" nid (Some raw)
               (mkWorld s0 []) in
    (forall t, fst (convert_value_to_node_type lib rt (mkNode nid) raw
                      (mkWorld s2 t)) = Raise (unsupported_data_type dt))
    /\ trace (snd r)
       = session_opened url auth user pw
           ++ [Called (CGetNode nid); Called (CReadDataType (mkNode nid));
               Logged ERROR [Lit "Value conversion error: ";
                             Lit "Unsupported data type: "; FmtType dt]]
           ++ teardown (fst (disconnect lib s3))
    /\ never is_write (trace (snd r))
    /\ fst r = after_teardown Normal (fst (disconnect lib s3)).
Proof.
  intros S lib rt s0 s1 s2 s3 url auth user pw nid raw dt
         Hb Hc Hconn Hnode Htype Hdt r. subst r.
  apply (convert_by_type_unsupported rt dt raw) in Hdt.
  split; [intro t; exec; rewrite Htype, Hdt; reflexivity|].
  accepted Hb Hc; given Hconn; given Hnode; given Htype; given Hdt; caught;
    destruct (disconnect lib s3) as [[[]|e] s4]; repeat split; reflexivity.
Qed.

Lemma unsupported_type_witness :
  client memory endpoint = Ok tt
  /\ credentials_accepted "anonymous" None None = true
  /\ connect memory plant = (Ok tt, plant)
  /\ get_node memory "ns=2;i=2007" plant = (Ok tt, plant)
  /\ read_data_type_as_variant_type memory (mkNode "ns=2;i=2007") plant
     = (Ok UInt16, plant)
  /\ has_conversion UInt16 = false
  /\ let r := main memory cpython endpoint "anonymous" None None "write"
                "ns=2;i=2007" (Some "3") (mkWorld plant []) in
     (forall t, fst (convert_value_to_node_type memory cpython
                       (mkNode "ns=2;i=2007") "3" (mkWorld plant t))
                = Raise (unsupported_data_type UInt16))
     /\ trace (snd r)
        = session_opened endpoint "anonymous" None None
            ++ [Called (CGetNode "ns=2;i=2007");
                Called (CReadDataType (mkNode "ns=2;i=2007"));
                Logged ERROR [Lit "Value conversion error: ";
                              Lit "Unsupported data type: "; FmtType UInt16]]
            ++ teardown (fst (disconnect memory plant))
     /\ never is_write (trace (snd r))
     /\ fst r = after_teardown Normal (fst (disconnect memory plant)).
Proof.
  split; [reflexivity|].
  do 5 (split; [reflexivity|]).
  apply (unsupported_type_aborts_write Store memory cpython plant plant plant
           plant endpoint "anonymous" None None "ns=2;i=2007" "3" UInt16);
    reflexivity.
Defined.

(** C6: on a node that reports Boolean, the helper reads the raw string as
    a base-10 integer and returns its truth value: ["1"] gives [True],
    ["0"] gives [False], and every string [int] accepts is converted
    without error, to [False] for zero and to [True] otherwise. *)
Theorem boolean_conversion :
  forall (S : Type) (lib : Library S) (rt : Runtime) (s s' : S)
         (node : Node) (t : Trace),
    read_data_type_as_variant_type lib node s = (Ok Boolean, s') ->
    let conv raw :=
      fst (convert_value_to_node_type lib rt node raw (mkWorld s t)) in
    conv "1" = Ok (VBool true)
    /\ conv "0" = Ok (VBool false)
    /\ forall raw n,
         py_int rt raw = Ok n -> conv raw = Ok (VBool (negb (n =? 0))).
Proof.
  intros S lib rt s s' node t H conv. subst conv.
  repeat split; [| |intros raw n Hn]; exec; rewrite H; exec;
    unfold convert_by_type; simpl; [reflexivity|reflexivity|].
  now rewrite Hn.
Qed.

Lemma boolean_conversion_witness :
  read_data_type_as_variant_type memory (mkNode "ns=2;i=2004") plant
  = (Ok Boolean, plant)
  /\ let conv raw :=
       fst (convert_value_to_node_type memory cpython (mkNode "ns=2;i=2004")
              raw (mkWorld plant [])) in
     conv "1" = Ok (VBool true)
     /\ conv "0" = Ok (VBool false)
     /\ forall raw n,
          py_int cpython raw = Ok n -> conv raw = Ok (VBool (negb (n =? 0))).
Proof.
  split; [reflexivity|].
  apply (boolean_conversion Store memory cpython plant plant
           (mkNode "ns=2;i=2004") []).
  reflexivity.
Defined.

(** C7: when the raw value of a write cannot be read as the numeric type
    the node reports ([int] fails on an integer node, [float] on a
    floating one), the helper raises that [ValueError]; [main] reports it
    as a conversion error, never calls [write_value], and closes the
    session. *)
Theorem unparsable_value_aborts_write :
  forall (S : Type) (lib : Library S) (rt : Runtime) (s0 s1 s2 s3 : S)
         (url auth : string) (user pw : option string) (nid raw : string)
         (dt : VariantType) (e : Exn),
    client lib url = Ok tt ->
    credentials_accepted auth user pw = true ->
    connect lib s0 = (Ok tt, s1) ->
    get_node lib nid s1 = (Ok tt, s2) ->
    read_data_type_as_variant_type lib (mkNode nid) s2 = (Ok dt, s3) ->
    variant_in dt [Int16; Int32; Int64] = true /\ py_int rt raw = Raise e
    \/ variant_in dt [Float; Double] = true /\ py_float rt raw = Raise e ->
    let r := main lib rt url auth user pw "write" nid (Some raw)
               (mkWorld s0 []) in
    (forall t, fst (convert_value_to_node_type lib rt (mkNode nid) raw
                      (mkWorld s2 t)) = Raise e)
    /\ exc_class e = ValueError
    /\ trace (snd r)
       = session_opened url auth user pw
           ++ [Called (CGetNode nid); Called (CReadDataType (mkNode nid));
               Logged ERROR (Lit "Value conversion error: " :: exc_msg e)]
           ++ teardown (fst (disconnect lib s3))
    /\ never is_write (trace (snd r))
    /\ fst r = after_teardown Normal (fst (disconnect lib s3)).
Proof.
  intros S lib rt s0 s1 s2 s3 url auth user pw nid raw dt e
         Hb Hc Hconn Hnode Htype Hraw r. subst r.
  apply convert_by_type_numeric_failure in Hraw as [Hconv Hve].
  split; [intro t; exec; rewrite Htype, Hconv; reflexivity|].
  split; [unfold is_ValueError in Hve; now destruct (exc_class e)|].
  accepted Hb Hc; given Hconn; given Hnode; given Htype; given Hconv; given Hve;
    destruct (disconnect lib s3) as [[[]|e'] s4]; repeat split; reflexivity.
Qed.

Lemma unparsable_value_witness :
  client memory endpoint = Ok tt
  /\ credentials_accepted "anonymous" None None = true
  /\ connect memory plant = (Ok tt, plant)
  /\ get_node memory "ns=2;i=2003" plant = (Ok tt, plant)
  /\ read_data_type_as_variant_type memory (mkNode "ns=2;i=2003") plant
     = (Ok Int32, plant)
  /\ (variant_in Int32 [Int16; Int32; Int64] = true
      /\ py_int cpython "12.5" = Raise (invalid_int_literal "12.5")
      \/ variant_in Int32 [Float; Double] = true
         /\ py_float cpython "12.5" = Raise (invalid_int_literal "12.5"))
  /\ let r := main memory cpython endpoint "anonymous" None None "write"
                "ns=2;i=2003" (Some "12.5") (mkWorld plant []) in
     (forall t, fst (convert_value_to_node_type memory cpython
                       (mkNode "ns=2;i=2003") "12.5" (mkWorld plant t))
                = Raise (invalid_int_literal "12.5"))
     /\ exc_class (invalid_int_literal "12.5") = ValueError
     /\ trace (snd r)
        = session_opened endpoint "anonymous" None None
            ++ [Called (CGetNode "ns=2;i=2003");
                Called (CReadDataType (mkNode "ns=2;i=2003"));
                Logged ERROR (Lit "Value conversion error: "
                                :: exc_msg (invalid_int_literal "12.5"))]
            ++ teardown (fst (disconnect memory plant))
     /\ never is_write (trace (snd r))
     /\ fst r = after_teardown Normal (fst (disconnect memory plant)).
Proof.
  split; [reflexivity|].
  do 4 (split; [reflexivity|]).
  split; [left; split; reflexivity|].
  apply (unparsable_value_aborts_write Store memory cpython plant plant plant
           plant endpoint "anonymous" None None "ns=2;i=2003" "12.5" Int32
           (invalid_int_literal "12.5"));
    solve [reflexivity | left; split; reflexivity].
Defined.

(** C8: when the write request of a write succeeds, the next call reads
    the same node again, and the value read is compared with the converted
    value by [==]: equal, the verification is logged at INFO; different, a
    WARNING is logged and nothing else changes - no ERROR record, the
    session is closed as usual and [main] ends normally (unless
    [disconnect] itself raises). *)
Theorem write_is_verified_by_reading_back :
  forall (S : Type) (lib : Library S) (rt : Runtime) (s0 s1 s2 s3 s4 s5 : S)
         (url auth : string) (user pw : option string) (nid raw : string)
         (dt : VariantType) (cv nv : PyValue),
    client lib url = Ok tt ->
    credentials_accepted auth user pw = true ->
    connect lib s0 = (Ok tt, s1) ->
    get_node lib nid s1 = (Ok tt, s2) ->
    read_data_type_as_variant_type lib (mkNode nid) s2 = (Ok dt, s3) ->
    convert_by_type rt dt raw = Ok cv ->
    write_value lib (mkNode nid) cv s3 = (Ok tt, s4) ->
    read_value lib (mkNode nid) s4 = (Ok nv, s5) ->
    let r := main lib rt url auth user pw "write" nid (Some raw)
               (mkWorld s0 []) in
    trace (snd r)
      = session_opened url auth user pw
          ++ [Called (CGetNode nid); Called (CReadDataType (mkNode nid));
              Logged INFO [Lit "Attempting to write value "; Fmt cv;
                           Lit " to node "; Fmt (VStr nid)];
              Called (CWriteValue (mkNode nid) cv);
              Logged INFO [Lit "Updated value of node "; Fmt (VStr nid);
                           Lit " to "; Fmt cv];
              Called (CReadValue (mkNode nid));
              if py_eq nv cv then verified nid nv
              else verification_failed cv nv]
          ++ teardown (fst (disconnect lib s5))
    /\ logged ERROR (trace (snd r)) = []
    /\ logged WARNING (trace (snd r))
       = (if py_eq nv cv then []
          else [[Lit "Verification failed: Expected "; Fmt cv;
                 Lit ", but got "; Fmt nv]])
    /\ fst r = after_teardown Normal (fst (disconnect lib s5)).
Proof.
  intros S lib rt s0 s1 s2 s3 s4 s5 url auth user pw nid raw dt cv nv
         Hb Hc Hconn Hnode Htype Hconv Hwrite Hread r. subst r.
  accepted Hb Hc; given Hconn; given Hnode; given Htype; given Hconv;
    given Hwrite; given Hread;
    destruct (py_eq nv cv); exec;
    destruct (disconnect lib s5) as [[[]|e] s6]; repeat split; reflexivity.
Qed.

(** Whatever the read-back answers, it is the call that follows a
    successful write. *)
Lemma read_back_follows_write :
  forall (S : Type) (lib : Library S) (rt : Runtime) (s0 s1 s2 s3 s4 : S)
         (url auth : string) (user pw : option string) (nid raw : string)
         (dt : VariantType) (cv : PyValue),
    client lib url = Ok tt ->
    credentials_accepted auth user pw = true ->
    connect lib s0 = (Ok tt, s1) ->
    get_node lib nid s1 = (Ok tt, s2) ->
    read_data_type_as_variant_type lib (mkNode nid) s2 = (Ok dt, s3) ->
    convert_by_type rt dt raw = Ok cv ->
    write_value lib (mkNode nid) cv s3 = (Ok tt, s4) ->
    exists rest,
      calls (trace (snd (main lib rt url auth user pw "write" nid (Some raw)
                           (mkWorld s0 []))))
      = calls (session_opened url auth user pw)
          ++ [CGetNode nid; CReadDataType (mkNode nid);
              CWriteValue (mkNode nid) cv; CReadValue (mkNode nid)]
          ++ rest.
Proof.
  intros S lib rt s0 s1 s2 s3 s4 url auth user pw nid raw dt cv
         Hb Hc Hconn Hnode Htype Hconv Hwrite.
  accepted Hb Hc; given Hconn; given Hnode; given Htype; given Hconv;
    given Hwrite; explore; eexists; reflexivity.
Qed.

Lemma write_is_verified_witness :
  client memory endpoint = Ok tt
  /\ credentials_accepted "anonymous" None None = true
  /\ connect memory plant = (Ok tt, plant)
  /\ get_node memory "ns=2;i=2003" plant = (Ok tt, plant)
  /\ read_data_type_as_variant_type memory (mkNode "ns=2;i=2003") plant
     = (Ok Int32, plant)
  /\ convert_by_type cpython Int32 "17" = Ok (VInt 17)
  /\ write_value memory (mkNode "ns=2;i=2003") (VInt 17) plant
     = (Ok tt, plant17)
  /\ read_value memory (mkNode "ns=2;i=2003") plant17 = (Ok (VInt 17), plant17)
  /\ let r := main memory cpython endpoint "anonymous" None None "write"
                "ns=2;i=2003" (Some "17") (mkWorld plant []) in
     trace (snd r)
       = session_opened endpoint "anonymous" None None
           ++ [Called (CGetNode "ns=2;i=2003");
               Called (CReadDataType (mkNode "ns=2;i=2003"));
               Logged INFO [Lit "Attempting to write value "; Fmt (VInt 17);
                            Lit " to node "; Fmt (VStr "ns=2;i=2003")];
               Called (CWriteValue (mkNode "ns=2;i=2003") (VInt 17));
               Logged INFO [Lit "Updated value of node ";
                            Fmt (VStr "ns=2;i=2003");
                            Lit " to "; Fmt (VInt 17)];
               Called (CReadValue (mkNode "ns=2;i=2003"));
               if py_eq (VInt 17) (VInt 17)
               then verified "ns=2;i=2003" (VInt 17)
               else verification_failed (VInt 17) (VInt 17)]
           ++ teardown (fst (disconnect memory plant17))
     /\ logged ERROR (trace (snd r)) = []
     /\ logged WARNING (trace (snd r))
        = (if py_eq (VInt 17) (VInt 17) then []
           else [[Lit "Verification failed: Expected "; Fmt (VInt 17);
                  Lit ", but got "; Fmt (VInt 17)]])
     /\ fst r = after_teardown Normal (fst (disconnect memory plant17)).
Proof.
  split; [reflexivity|].
  do 7 (split; [reflexivity|]).
  apply (write_is_verified_by_reading_back Store memory cpython plant plant
           plant plant plant17 plant17 endpoint "anonymous" None None
           "ns=2;i=2003" "17" Int32 (VInt 17) (VInt 17));
    reflexivity.
Defined.

(** Both verdicts occur: a server that stores the value is verified, one
    that keeps the old value draws the warning, and [main] ends the same
    way. *)
Example verification_verdicts :
  let run_with lib :=
    main lib cpython endpoint "anonymous" None None "write" "ns=2;i=2003"
      (Some "17") (mkWorld plant []) in
  In (verified "ns=2;i=2003" (VInt 17)) (trace (snd (run_with memory)))
  /\ In (verification_failed (VInt 17) (VInt 42))
       (trace (snd (run_with deaf)))
  /\ fst (run_with memory) = Normal
  /\ fst (run_with deaf) = Normal.
Proof. vm_compute. intuition. Qed.

(** *** The URL *)

Example str_of_int_examples :
  str_of_int 4840 = "4840" /\ str_of_int 0 = "0" /\ str_of_int (-5) = "-5"
  /\ str_of_int 65535 = "65535".
Proof. repeat split; reflexivity. Qed.

(** C9: the URL built under [__main__] is the concatenation of
    ["opc.tcp://"], the host name, [":"], the port in decimal and the
    path, and it is the URL, the only one, a client is built with. *)
Theorem client_url_is_concatenation :
  forall (S : Type) (lib : Library S) (rt : Runtime) (s0 : S)
         (host : string) (p : Z) (pth au : string) (user pw : option string)
         (op nid : string) (val : option string),
    let args := mkArgs host p pth au user pw op nid val in
    let url := ("opc.tcp://" ++ host ++ ":" ++ str_of_int p ++ pth)%string in
    opc_ua_server_url args = url
    /\ filter is_client (calls (trace (snd (Client.run lib rt s0 args))))
       = [CClient url].
Proof.
  intros. subst args url. split; [reflexivity|].
  unfold Client.run, opc_ua_server_url. simpl.
  generalize ("opc.tcp://" ++ host ++ ":" ++ str_of_int p ++ pth)%string.
  intro url. explore; reflexivity.
Qed.

(** From the command line the two "invalid" branches of [main] are never
    taken: the parser has already turned such arguments down. *)
Lemma parsed_arguments_are_valid :
  forall (S : Type) (lib : Library S) (rt : Runtime) (s0 : S) (args : Args),
    accepted_by_parser args = true ->
    let t := trace (snd (Client.run lib rt s0 args)) in
    ~ In invalid_operation (logged ERROR t)
    /\ ~ In invalid_auth_type (logged ERROR t).
Proof.
  intros S lib rt s0 [host p pth au user pw op nid val] H t. subst t.
  unfold accepted_by_parser in H. simpl in H.
  apply andb_prop in H as [Ha Ho].
  apply orb_prop in Ha, Ho.
  unfold Client.run, opc_ua_server_url. simpl.
  generalize ("opc.tcp://" ++ host ++ ":" ++ str_of_int p ++ pth)%string.
  intro url.
  destruct Ha as [Ha|Ha], Ho as [Ho|Ho];
    apply String.eqb_eq in Ha, Ho; subst au op;
    explore; simpl; split; intuition discriminate.
Qed.

(** *** The read path *)

(** C10: a read only fetches the node and reads its value, between
    connecting and disconnecting: it never calls [write_value] nor the
    conversion helper (whose first step asks the node for its data type),
    and whatever part of the library state these calls leave alone - the
    values of the nodes - is after [main] what it was before. *)
Theorem read_never_writes :
  forall (S V : Type) (lib : Library S) (rt : Runtime) (view : S -> V)
         (s0 : S) (url auth : string) (user pw : option string)
         (nid : string) (val : option string),
    (forall s, view (snd (connect lib s)) = view s) ->
    (forall s, view (snd (get_node lib nid s)) = view s) ->
    (forall s, view (snd (read_value lib (mkNode nid) s)) = view s) ->
    (forall s, view (snd (disconnect lib s)) = view s) ->
    let w := snd (main lib rt url auth user pw "read" nid val
                    (mkWorld s0 [])) in
    forallb (read_path_call nid) (calls (trace w)) = true
    /\ never is_write (trace w)
    /\ never is_read_data_type (trace w)
    /\ view (lib_state w) = view s0.
Proof.
  intros S V lib rt view s0 url auth user pw nid val Hc Hn Hr Hd w.
  assert (Ho : only (read_path_call nid)
                 (main lib rt url auth user pw "read" nid val)).
  { apply read_main_respects.
    - apply extended_by_refl.
    - apply extended_by_trans.
    - intros. apply only_emit_log.
    - intros. now apply only_invoke.
    - intros. now apply only_emit_call.
    - intros. now apply only_emit_call.
    - now apply only_invoke.
    - apply only_invoke. apply String.eqb_refl.
    - apply only_invoke. apply String.eqb_refl.
    - now apply only_invoke. }
  assert (Hk : keeps view (main lib rt url auth user pw "read" nid val)).
  { apply read_main_respects;
      try (intros; apply keeps_emit); try (apply keeps_invoke; assumption).
    - apply same_refl.
    - apply same_trans. }
  destruct (Ho (mkWorld s0 [])) as [l [El Ol]]. fold w in El.
  simpl in El. rewrite El.
  repeat split; auto.
  - apply (forallb_never (read_path_call nid)); [|exact Ol].
    intros [] H; solve [reflexivity | discriminate H].
  - apply (forallb_never (read_path_call nid)); [|exact Ol].
    intros [] H; solve [reflexivity | discriminate H].
  - apply (Hk (mkWorld s0 [])).
Qed.

Lemma read_never_writes_witness :
  (forall s, snd (connect memory s) = s)
  /\ (forall s, snd (get_node memory "ns=2;i=2003" s) = s)
  /\ (forall s, snd (read_value memory (mkNode "ns=2;i=2003") s) = s)
  /\ (forall s, snd (disconnect memory s) = s)
  /\ let w := snd (main memory cpython endpoint "anonymous" None None "read"
                     "ns=2;i=2003" None (mkWorld plant [])) in
     forallb (read_path_call "ns=2;i=2003") (calls (trace w)) = true
     /\ never is_write (trace w)
     /\ never is_read_data_type (trace w)
     /\ lib_state w = plant.
Proof.
  do 4 (split; [reflexivity|]).
  apply (read_never_writes Store Store memory cpython (fun s => s) plant
           endpoint "anonymous" None None "ns=2;i=2003" None);
    reflexivity.
Defined.

End Properties.

(* ================================================================== *)
(** ** Further properties: the other paths of the script *)
(* ================================================================== *)

Module Paths.
Import Py Ua Client Spec UaFacts Fixture Properties.

Local Open Scope stmt_scope.

(** The classes of exceptions are nested: a [ValueError] is an
    [Exception]. *)
Ltac classes e :=
  unfold outer_report, inner_report, after_exception;
  let Hv := fresh "Hv" in
  let Hx := fresh "Hx" in
  destruct (is_ValueError e) eqn:Hv; destruct (is_Exception e) eqn:Hx;
  try (exfalso; unfold is_ValueError, is_Exception in *;
       destruct (exc_class e); discriminate);
  do 2 (exec; rewrite ?Hv, ?Hx); exec.

(** The last step of every path: the answer of [disconnect]. *)
Ltac finish lib s :=
  destruct (disconnect lib s) as [[[]|?] ?]; repeat split; reflexivity.

(** *** Rejected before connecting *)

(** X1: once the client object is built, an auth-type other than
    [userpass] and [anonymous] is turned down before the [try]: the error
    is reported, [main] returns, nothing is sent and the library state is
    untouched (lines 28, 37-39). *)
Theorem unknown_auth_type_fails_before_connecting :
  forall (S : Type) (lib : Library S) (rt : Runtime) (s0 : S)
         (url auth : string) (user pw : option string)
         (op nid : string) (val : option string),
    client lib url = Ok tt ->
    auth <> "userpass" -> auth <> "anonymous" ->
    main lib rt url auth user pw op nid val (mkWorld s0 [])
    = (Return,
       mkWorld s0 [Called (CClient url); Logged ERROR invalid_auth_type]).
Proof.
  intros S lib rt s0 url auth user pw op nid val Hb Hu Ha.
  apply String.eqb_neq in Hu, Ha.
  unfold main. rewrite Hb, Hu, Ha. reflexivity.
Qed.

Lemma unknown_auth_type_witness :
  client memory endpoint = Ok tt
  /\ "certificate" <> "userpass" /\ "certificate" <> "anonymous"
  /\ main memory cpython endpoint "certificate" (Some "operator")
       (Some "secret") "read" "ns=2;i=2003" None (mkWorld plant [])
     = (Return,
        mkWorld plant
          [Called (CClient endpoint); Logged ERROR invalid_auth_type]).
Proof.
  split; [reflexivity|]. split; [discriminate|]. split; [discriminate|].
  apply (unknown_auth_type_fails_before_connecting Store memory cpython plant
           endpoint "certificate" (Some "operator") (Some "secret") "read"
           "ns=2;i=2003" None); solve [reflexivity | discriminate].
Defined.

(** *** Failures of the library, call by call *)

(** X2: when [connect] raises, no node is fetched, read or written and
    [disconnect] is still called. An [Exception] is logged by the outer
    handler and [main] ends normally; any other exception (an interrupt, a
    cancellation) is not logged and leaves [main] after the [finally]
    (lines 41-42, 73-77). *)
Theorem connect_failure_is_reported :
  forall (S : Type) (lib : Library S) (rt : Runtime) (s0 s1 : S)
         (url auth : string) (user pw : option string)
         (op nid : string) (val : option string) (e : Exn),
    client lib url = Ok tt ->
    credentials_accepted auth user pw = true ->
    connect lib s0 = (Raise e, s1) ->
    let r := main lib rt url auth user pw op nid val (mkWorld s0 []) in
    trace (snd r)
      = Called (CClient url) :: login auth user pw
          ++ Called CConnect :: outer_report e
          ++ teardown (fst (disconnect lib s1))
    /\ fst r = after_teardown (after_exception e) (fst (disconnect lib s1))
    /\ never is_node_request (trace (snd r)).
Proof.
  intros S lib rt s0 s1 url auth user pw op nid val e Hb Hc Hconn r. subst r.
  accepted Hb Hc; given Hconn; classes e; finish lib s1.
Qed.

Lemma connect_failure_witness :
  client unreachable endpoint = Ok tt
  /\ credentials_accepted "anonymous" None None = true
  /\ connect unreachable tt = (Raise connection_refused, tt)
  /\ let r := main unreachable cpython endpoint "anonymous" None None "write"
                "ns=2;i=2003" (Some "17") (mkWorld tt []) in
     trace (snd r)
       = Called (CClient endpoint) :: login "anonymous" None None
           ++ Called CConnect :: outer_report connection_refused
           ++ teardown (fst (disconnect unreachable tt))
     /\ fst r = after_teardown (after_exception connection_refused)
                  (fst (disconnect unreachable tt))
     /\ never is_node_request (trace (snd r)).
Proof.
  split; [reflexivity|].
  split; [reflexivity|]. split; [reflexivity|].
  apply (connect_failure_is_reported unit unreachable cpython tt tt endpoint
           "anonymous" None None "write" "ns=2;i=2003" (Some "17")
           connection_refused); reflexivity.
Defined.

(** X3: when [get_node] raises, in a read or in a write with a value, the
    exception reaches the outer handler - the call stands before the inner
    [try] of the write branch - and the node is neither read nor written
    (lines 46, 53, 73-77). *)
Theorem get_node_failure_is_reported :
  forall (S : Type) (lib : Library S) (rt : Runtime) (s0 s1 s2 : S)
         (url auth : string) (user pw : option string)
         (op nid raw : string) (val : option string) (e : Exn),
    client lib url = Ok tt ->
    credentials_accepted auth user pw = true ->
    connect lib s0 = (Ok tt, s1) ->
    op = "read" \/ op = "write" /\ val = Some raw ->
    get_node lib nid s1 = (Raise e, s2) ->
    let r := main lib rt url auth user pw op nid val (mkWorld s0 []) in
    trace (snd r)
      = session_opened url auth user pw
          ++ Called (CGetNode nid) :: outer_report e
          ++ teardown (fst (disconnect lib s2))
    /\ fst r = after_teardown (after_exception e) (fst (disconnect lib s2))
    /\ count is_node_request (trace (snd r)) = 1%nat.
Proof.
  intros S lib rt s0 s1 s2 url auth user pw op nid raw val e
         Hb Hc Hconn Hop Hnode r. subst r.
  destruct Hop as [->|[-> ->]];
    accepted Hb Hc; given Hconn; given Hnode; classes e; finish lib s2.
Qed.

Lemma get_node_failure_witness :
  client (failing is_get_node timed_out) endpoint = Ok tt
  /\ credentials_accepted "anonymous" None None = true
  /\ connect (failing is_get_node timed_out) plant = (Ok tt, plant)
  /\ ("write" = "read" \/ "write" = "write" /\ Some "17" = Some "17")
  /\ get_node (failing is_get_node timed_out) "ns=2;i=2003" plant
     = (Raise timed_out, plant)
  /\ let lib := failing is_get_node timed_out in
     let r := main lib cpython endpoint "anonymous" None None "write"
                "ns=2;i=2003" (Some "17") (mkWorld plant []) in
     trace (snd r)
       = session_opened endpoint "anonymous" None None
           ++ Called (CGetNode "ns=2;i=2003") :: outer_report timed_out
           ++ teardown (fst (disconnect lib plant))
     /\ fst r = after_teardown (after_exception timed_out)
                  (fst (disconnect lib plant))
     /\ count is_node_request (trace (snd r)) = 1%nat.
Proof.
  split; [reflexivity|].
  split; [reflexivity|]. split; [reflexivity|].
  split; [right; split; reflexivity|]. split; [reflexivity|].
  apply (get_node_failure_is_reported Store (failing is_get_node timed_out)
           cpython plant plant plant endpoint "anonymous" None None "write"
           "ns=2;i=2003" "17" (Some "17") timed_out);
    solve [reflexivity | right; split; reflexivity].
Defined.

(** *** The read path *)

(** X4: a read that succeeds logs the value as the library returned it,
    without conversion, and closes the session; these are all the events
    (lines 45-48, 75-77). *)
Theorem read_logs_the_value :
  forall (S : Type) (lib : Library S) (rt : Runtime) (s0 s1 s2 s3 : S)
         (url auth : string) (user pw : option string) (nid : string)
         (val : option string) (v : PyValue),
    client lib url = Ok tt ->
    credentials_accepted auth user pw = true ->
    connect lib s0 = (Ok tt, s1) ->
    get_node lib nid s1 = (Ok tt, s2) ->
    read_value lib (mkNode nid) s2 = (Ok v, s3) ->
    let r := main lib rt url auth user pw "read" nid val (mkWorld s0 []) in
    trace (snd r)
      = session_opened url auth user pw
          ++ [Called (CGetNode nid); Called (CReadValue (mkNode nid));
              Logged INFO [Lit "Value of node "; Fmt (VStr nid); Lit ": ";
                           Fmt v]]
          ++ teardown (fst (disconnect lib s3))
    /\ fst r = after_teardown Normal (fst (disconnect lib s3))
    /\ logged ERROR (trace (snd r)) = [].
Proof.
  intros S lib rt s0 s1 s2 s3 url auth user pw nid val v
         Hb Hc Hconn Hnode Hread r. subst r.
  accepted Hb Hc; given Hconn; given Hnode; given Hread; finish lib s3.
Qed.

Lemma read_logs_the_value_witness :
  client memory endpoint = Ok tt
  /\ credentials_accepted "userpass" (Some "operator") (Some "secret") = true
  /\ connect memory plant = (Ok tt, plant)
  /\ get_node memory "ns=2;i=2006" plant = (Ok tt, plant)
  /\ read_value memory (mkNode "ns=2;i=2006") plant = (Ok (VStr "idle"), plant)
  /\ let r := main memory cpython endpoint "userpass" (Some "operator")
                (Some "secret") "read" "ns=2;i=2006" (Some "ignored")
                (mkWorld plant []) in
     trace (snd r)
       = session_opened endpoint "userpass" (Some "operator") (Some "secret")
           ++ [Called (CGetNode "ns=2;i=2006");
               Called (CReadValue (mkNode "ns=2;i=2006"));
               Logged INFO [Lit "Value of node "; Fmt (VStr "ns=2;i=2006");
                            Lit ": "; Fmt (VStr "idle")]]
           ++ teardown (fst (disconnect memory plant))
     /\ fst r = after_teardown Normal (fst (disconnect memory plant))
     /\ logged ERROR (trace (snd r)) = [].
Proof.
  split; [reflexivity|].
  do 4 (split; [reflexivity|]).
  apply (read_logs_the_value Store memory cpython plant plant plant plant
           endpoint "userpass" (Some "operator") (Some "secret") "ns=2;i=2006"
           (Some "ignored") (VStr "idle")); reflexivity.
Defined.

(** X5: when [read_value] raises in a read, nothing is logged as the
    value: the outer handler reports an [Exception], and the session is
    closed (lines 47, 73-77). *)
Theorem read_failure_is_reported :
  forall (S : Type) (lib : Library S) (rt : Runtime) (s0 s1 s2 s3 : S)
         (url auth : string) (user pw : option string) (nid : string)
         (val : option string) (e : Exn),
    client lib url = Ok tt ->
    credentials_accepted auth user pw = true ->
    connect lib s0 = (Ok tt, s1) ->
    get_node lib nid s1 = (Ok tt, s2) ->
    read_value lib (mkNode nid) s2 = (Raise e, s3) ->
    let r := main lib rt url auth user pw "read" nid val (mkWorld s0 []) in
    trace (snd r)
      = session_opened url auth user pw
          ++ Called (CGetNode nid) :: Called (CReadValue (mkNode nid))
             :: outer_report e
          ++ teardown (fst (disconnect lib s3))
    /\ fst r = after_teardown (after_exception e) (fst (disconnect lib s3)).
Proof.
  intros S lib rt s0 s1 s2 s3 url auth user pw nid val e
         Hb Hc Hconn Hnode Hread r. subst r.
  accepted Hb Hc; given Hconn; given Hnode; given Hread; classes e;
    finish lib s3.
Qed.

Lemma read_failure_witness :
  client memory endpoint = Ok tt
  /\ credentials_accepted "anonymous" None None = true
  /\ connect memory plant = (Ok tt, plant)
  /\ get_node memory "ns=9;i=1" plant = (Ok tt, plant)
  /\ read_value memory (mkNode "ns=9;i=1") plant = (Raise bad_node_id, plant)
  /\ let r := main memory cpython endpoint "anonymous" None None "read"
                "ns=9;i=1" None (mkWorld plant []) in
     trace (snd r)
       = session_opened endpoint "anonymous" None None
           ++ Called (CGetNode "ns=9;i=1")
              :: Called (CReadValue (mkNode "ns=9;i=1"))
              :: outer_report bad_node_id
           ++ teardown (fst (disconnect memory plant))
     /\ fst r = after_teardown (after_exception bad_node_id)
                  (fst (disconnect memory plant)).
Proof.
  split; [reflexivity|].
  do 4 (split; [reflexivity|]).
  apply (read_failure_is_reported Store memory cpython plant plant plant plant
           endpoint "anonymous" None None "ns=9;i=1" None bad_node_id);
    reflexivity.
Defined.

(** *** The write path *)

(** Whatever the conversion raises by itself is a [ValueError]. *)
Lemma convert_by_type_raises_ValueError rt t raw e :
  convert_by_type rt t raw = Raise e -> is_ValueError e = true.
Proof.
  unfold convert_by_type, is_ValueError.
  destruct (variant_in t [Int16; Int32; Int64]).
  { destruct (py_int rt raw) eqn:E; [discriminate|]. intros [= <-].
    now rewrite (PyFacts.py_int_raises_ValueError _ _ _ E). }
  destruct (variant_in t [Float; Double]).
  { destruct (py_float rt raw) eqn:E; [discriminate|]. intros [= <-].
    now rewrite (PyFacts.py_float_raises_ValueError _ _ _ E). }
  destruct (variant_eqb t Boolean).
  { destruct (py_int rt raw) eqn:E; [discriminate|]. intros [= <-].
    now rewrite (PyFacts.py_int_raises_ValueError _ _ _ E). }
  destruct (variant_eqb t String); [discriminate|intros [= <-]; reflexivity].
Qed.

(** X6: the conversion returns a value of the Python class that goes with
    the data type of the node - an [int] for the three integer types, a
    [float] for the two floating ones, a [bool] for Boolean, and the raw
    string itself for String - and nothing for any other type
    (lines 16-25). *)
Theorem converted_value_fits_data_type :
  forall (rt : Runtime) (t : VariantType) (raw : string) (v : PyValue),
    convert_by_type rt t raw = Ok v -> fits t raw v.
Proof.
  intros rt t raw v. unfold convert_by_type, fits.
  destruct (variant_in t [Int16; Int32; Int64]) eqn:Ei.
  { destruct (py_int rt raw); intros [= <-]. reflexivity. }
  destruct (variant_in t [Float; Double]) eqn:Ef.
  { destruct (py_float rt raw); intros [= <-]. reflexivity. }
  destruct (variant_eqb t Boolean) eqn:Eb.
  { destruct (py_int rt raw); intros [= <-]. now destruct t. }
  destruct (variant_eqb t String) eqn:Es; [|discriminate].
  intros [= <-]. split; [now destruct t|reflexivity].
Qed.

Lemma converted_value_fits_witness :
  convert_by_type cpython Double "12.5"
  = Ok (VFloat (S754_finite false 7036874417766400 (-49)))
  /\ fits Double "12.5" (VFloat (S754_finite false 7036874417766400 (-49))).
Proof.
  split; [reflexivity|].
  apply (converted_value_fits_data_type cpython Double "12.5"
           (VFloat (S754_finite false 7036874417766400 (-49)))).
  reflexivity.
Defined.

(** X7: when the node cannot tell its data type, the helper passes the
    exception on unchanged; the inner handlers report it - under
    "Value conversion error" if it is a [ValueError] - and nothing is
    written (lines 13, 55, 66-69). *)
Theorem data_type_failure_aborts_write :
  forall (S : Type) (lib : Library S) (rt : Runtime) (s0 s1 s2 s3 : S)
         (url auth : string) (user pw : option string) (nid raw : string)
         (e : Exn),
    client lib url = Ok tt ->
    credentials_accepted auth user pw = true ->
    connect lib s0 = (Ok tt, s1) ->
    get_node lib nid s1 = (Ok tt, s2) ->
    read_data_type_as_variant_type lib (mkNode nid) s2 = (Raise e, s3) ->
    let r := main lib rt url auth user pw "write" nid (Some raw)
               (mkWorld s0 []) in
    (forall t, fst (convert_value_to_node_type lib rt (mkNode nid) raw
                      (mkWorld s2 t)) = Raise e)
    /\ trace (snd r)
       = session_opened url auth user pw
           ++ Called (CGetNode nid) :: Called (CReadDataType (mkNode nid))
              :: inner_report e
           ++ teardown (fst (disconnect lib s3))
    /\ fst r = after_teardown (after_exception e) (fst (disconnect lib s3))
    /\ never is_write (trace (snd r)).
Proof.
  intros S lib rt s0 s1 s2 s3 url auth user pw nid raw e
         Hb Hc Hconn Hnode Htype r. subst r.
  split; [intro t; exec; rewrite Htype; reflexivity|].
  accepted Hb Hc; given Hconn; given Hnode; given Htype; classes e;
    finish lib s3.
Qed.

Lemma data_type_failure_witness :
  client memory endpoint = Ok tt
  /\ credentials_accepted "anonymous" None None = true
  /\ connect memory plant = (Ok tt, plant)
  /\ get_node memory "ns=9;i=1" plant = (Ok tt, plant)
  /\ read_data_type_as_variant_type memory (mkNode "ns=9;i=1") plant
     = (Raise bad_node_id, plant)
  /\ let r := main memory cpython endpoint "anonymous" None None "write"
                "ns=9;i=1" (Some "17") (mkWorld plant []) in
     (forall t, fst (convert_value_to_node_type memory cpython
                       (mkNode "ns=9;i=1") "17" (mkWorld plant t))
                = Raise bad_node_id)
     /\ trace (snd r)
        = session_opened endpoint "anonymous" None None
            ++ Called (CGetNode "ns=9;i=1")
               :: Called (CReadDataType (mkNode "ns=9;i=1"))
               :: inner_report bad_node_id
            ++ teardown (fst (disconnect memory plant))
     /\ fst r = after_teardown (after_exception bad_node_id)
                  (fst (disconnect memory plant))
     /\ never is_write (trace (snd r)).
Proof.
  split; [reflexivity|].
  do 4 (split; [reflexivity|]).
  apply (data_type_failure_aborts_write Store memory cpython plant plant plant
           plant endpoint "anonymous" None None "ns=9;i=1" "17" bad_node_id);
    reflexivity.
Defined.

(** X8: whenever the conversion fails, for whatever data type - also a
    Boolean node given a string [int] rejects - the error is a
    [ValueError], it is reported under "Value conversion error", nothing is
    written, and [main] ends normally (lines 16-25, 55, 66-67). *)
Theorem conversion_failure_aborts_write :
  forall (S : Type) (lib : Library S) (rt : Runtime) (s0 s1 s2 s3 : S)
         (url auth : string) (user pw : option string) (nid raw : string)
         (dt : VariantType) (e : Exn),
    client lib url = Ok tt ->
    credentials_accepted auth user pw = true ->
    connect lib s0 = (Ok tt, s1) ->
    get_node lib nid s1 = (Ok tt, s2) ->
    read_data_type_as_variant_type lib (mkNode nid) s2 = (Ok dt, s3) ->
    convert_by_type rt dt raw = Raise e ->
    let r := main lib rt url auth user pw "write" nid (Some raw)
               (mkWorld s0 []) in
    trace (snd r)
      = session_opened url auth user pw
          ++ [Called (CGetNode nid); Called (CReadDataType (mkNode nid));
              Logged ERROR (Lit "Value conversion error: " :: exc_msg e)]
          ++ teardown (fst (disconnect lib s3))
    /\ fst r = after_teardown Normal (fst (disconnect lib s3))
    /\ never is_write (trace (snd r)).
Proof.
  intros S lib rt s0 s1 s2 s3 url auth user pw nid raw dt e
         Hb Hc Hconn Hnode Htype Hconv r. subst r.
  pose proof (convert_by_type_raises_ValueError _ _ _ _ Hconv) as Hve.
  accepted Hb Hc; given Hconn; given Hnode; given Htype; given Hconv; given Hve;
    finish lib s3.
Qed.

Lemma conversion_failure_witness :
  client memory endpoint = Ok tt
  /\ credentials_accepted "anonymous" None None = true
  /\ connect memory plant = (Ok tt, plant)
  /\ get_node memory "ns=2;i=2004" plant = (Ok tt, plant)
  /\ read_data_type_as_variant_type memory (mkNode "ns=2;i=2004") plant
     = (Ok Boolean, plant)
  /\ convert_by_type cpython Boolean "true"
     = Raise (invalid_int_literal "true")
  /\ let r := main memory cpython endpoint "anonymous" None None "write"
                "ns=2;i=2004" (Some "true") (mkWorld plant []) in
     trace (snd r)
       = session_opened endpoint "anonymous" None None
           ++ [Called (CGetNode "ns=2;i=2004");
               Called (CReadDataType (mkNode "ns=2;i=2004"));
               Logged ERROR (Lit "Value conversion error: "
                               :: exc_msg (invalid_int_literal "true"))]
           ++ teardown (fst (disconnect memory plant))
     /\ fst r = after_teardown Normal (fst (disconnect memory plant))
     /\ never is_write (trace (snd r)).
Proof.
  split; [reflexivity|].
  do 5 (split; [reflexivity|]).
  apply (conversion_failure_aborts_write Store memory cpython plant plant
           plant plant endpoint "anonymous" None None "ns=2;i=2004" "true"
           Boolean (invalid_int_literal "true")); reflexivity.
Defined.

(** X9: when [write_value] raises, the node is not read back. The error is
    reported by the inner handlers - a [ValueError] of the library under
    "Value conversion error", although the conversion succeeded - and the
    session is closed (lines 57, 66-69). *)
Theorem write_failure_is_reported :
  forall (S : Type) (lib : Library S) (rt : Runtime) (s0 s1 s2 s3 s4 : S)
         (url auth : string) (user pw : option string) (nid raw : string)
         (dt : VariantType) (cv : PyValue) (e : Exn),
    client lib url = Ok tt ->
    credentials_accepted auth user pw = true ->
    connect lib s0 = (Ok tt, s1) ->
    get_node lib nid s1 = (Ok tt, s2) ->
    read_data_type_as_variant_type lib (mkNode nid) s2 = (Ok dt, s3) ->
    convert_by_type rt dt raw = Ok cv ->
    write_value lib (mkNode nid) cv s3 = (Raise e, s4) ->
    let r := main lib rt url auth user pw "write" nid (Some raw)
               (mkWorld s0 []) in
    trace (snd r)
      = session_opened url auth user pw
          ++ Called (CGetNode nid) :: Called (CReadDataType (mkNode nid))
             :: Logged INFO [Lit "Attempting to write value "; Fmt cv;
                             Lit " to node "; Fmt (VStr nid)]
             :: Called (CWriteValue (mkNode nid) cv)
             :: inner_report e
          ++ teardown (fst (disconnect lib s4))
    /\ fst r = after_teardown (after_exception e) (fst (disconnect lib s4))
    /\ never is_read_value (trace (snd r)).
Proof.
  intros S lib rt s0 s1 s2 s3 s4 url auth user pw nid raw dt cv e
         Hb Hc Hconn Hnode Htype Hconv Hwrite r. subst r.
  accepted Hb Hc; given Hconn; given Hnode; given Htype; given Hconv;
    given Hwrite; classes e; finish lib s4.
Qed.

Lemma write_failure_witness :
  let lib := failing is_write bad_argument in
  client lib endpoint = Ok tt
  /\ credentials_accepted "anonymous" None None = true
  /\ connect lib plant = (Ok tt, plant)
  /\ get_node lib "ns=2;i=2003" plant = (Ok tt, plant)
  /\ read_data_type_as_variant_type lib (mkNode "ns=2;i=2003") plant
     = (Ok Int32, plant)
  /\ convert_by_type cpython Int32 "17" = Ok (VInt 17)
  /\ write_value lib (mkNode "ns=2;i=2003") (VInt 17) plant
     = (Raise bad_argument, plant)
  /\ let r := main lib cpython endpoint "anonymous" None None "write"
                "ns=2;i=2003" (Some "17") (mkWorld plant []) in
     trace (snd r)
       = session_opened endpoint "anonymous" None None
           ++ Called (CGetNode "ns=2;i=2003")
              :: Called (CReadDataType (mkNode "ns=2;i=2003"))
              :: Logged INFO [Lit "Attempting to write value "; Fmt (VInt 17);
                              Lit " to node "; Fmt (VStr "ns=2;i=2003")]
              :: Called (CWriteValue (mkNode "ns=2;i=2003") (VInt 17))
              :: inner_report bad_argument
           ++ teardown (fst (disconnect lib plant))
     /\ fst r = after_teardown (after_exception bad_argument)
                  (fst (disconnect lib plant))
     /\ never is_read_value (trace (snd r)).
Proof.
  intro lib. split; [reflexivity|].
  do 6 (split; [reflexivity|]).
  apply (write_failure_is_reported Store lib cpython plant plant plant plant
           plant endpoint "anonymous" None None "ns=2;i=2003" "17" Int32
           (VInt 17) bad_argument); reflexivity.
Defined.

(** X10: when the read-back raises after a successful write, the write is
    neither repeated nor undone: the exception is reported by the inner
    handlers as an error of the write, no verdict is logged, and the
    session is closed (lines 57-61, 66-69). *)
Theorem read_back_failure_is_reported :
  forall (S : Type) (lib : Library S) (rt : Runtime) (s0 s1 s2 s3 s4 s5 : S)
         (url auth : string) (user pw : option string) (nid raw : string)
         (dt : VariantType) (cv : PyValue) (e : Exn),
    client lib url = Ok tt ->
    credentials_accepted auth user pw = true ->
    connect lib s0 = (Ok tt, s1) ->
    get_node lib nid s1 = (Ok tt, s2) ->
    read_data_type_as_variant_type lib (mkNode nid) s2 = (Ok dt, s3) ->
    convert_by_type rt dt raw = Ok cv ->
    write_value lib (mkNode nid) cv s3 = (Ok tt, s4) ->
    read_value lib (mkNode nid) s4 = (Raise e, s5) ->
    let r := main lib rt url auth user pw "write" nid (Some raw)
               (mkWorld s0 []) in
    trace (snd r)
      = session_opened url auth user pw
          ++ Called (CGetNode nid) :: Called (CReadDataType (mkNode nid))
             :: Logged INFO [Lit "Attempting to write value "; Fmt cv;
                             Lit " to node "; Fmt (VStr nid)]
             :: Called (CWriteValue (mkNode nid) cv)
             :: Logged INFO [Lit "Updated value of node "; Fmt (VStr nid);
                             Lit " to "; Fmt cv]
             :: Called (CReadValue (mkNode nid))
             :: inner_report e
          ++ teardown (fst (disconnect lib s5))
    /\ fst r = after_teardown (after_exception e) (fst (disconnect lib s5))
    /\ count is_write (trace (snd r)) = 1%nat
    /\ logged WARNING (trace (snd r)) = [].
Proof.
  intros S lib rt s0 s1 s2 s3 s4 s5 url auth user pw nid raw dt cv e
         Hb Hc Hconn Hnode Htype Hconv Hwrite Hread r. subst r.
  accepted Hb Hc; given Hconn; given Hnode; given Htype; given Hconv;
    given Hwrite; given Hread; classes e; finish lib s5.
Qed.

Lemma read_back_failure_witness :
  let lib := failing is_read_value timed_out in
  client lib endpoint = Ok tt
  /\ credentials_accepted "anonymous" None None = true
  /\ connect lib plant = (Ok tt, plant)
  /\ get_node lib "ns=2;i=2003" plant = (Ok tt, plant)
  /\ read_data_type_as_variant_type lib (mkNode "ns=2;i=2003") plant
     = (Ok Int32, plant)
  /\ convert_by_type cpython Int32 "17" = Ok (VInt 17)
  /\ write_value lib (mkNode "ns=2;i=2003") (VInt 17) plant
     = (Ok tt, plant17)
  /\ read_value lib (mkNode "ns=2;i=2003") plant17 = (Raise timed_out, plant17)
  /\ let r := main lib cpython endpoint "anonymous" None None "write"
                "ns=2;i=2003" (Some "17") (mkWorld plant []) in
     trace (snd r)
       = session_opened endpoint "anonymous" None None
           ++ Called (CGetNode "ns=2;i=2003")
              :: Called (CReadDataType (mkNode "ns=2;i=2003"))
              :: Logged INFO [Lit "Attempting to write value "; Fmt (VInt 17);
                              Lit " to node "; Fmt (VStr "ns=2;i=2003")]
              :: Called (CWriteValue (mkNode "ns=2;i=2003") (VInt 17))
              :: Logged INFO [Lit "Updated value of node ";
                              Fmt (VStr "ns=2;i=2003");
                              Lit " to "; Fmt (VInt 17)]
              :: Called (CReadValue (mkNode "ns=2;i=2003"))
              :: inner_report timed_out
           ++ teardown (fst (disconnect lib plant17))
     /\ fst r = after_teardown (after_exception timed_out)
                  (fst (disconnect lib plant17))
     /\ count is_write (trace (snd r)) = 1%nat
     /\ logged WARNING (trace (snd r)) = [].
Proof.
  intro lib. split; [reflexivity|].
  do 7 (split; [reflexivity|]).
  apply (read_back_failure_is_reported Store lib cpython plant plant plant
           plant plant17 plant17 endpoint "anonymous" None None "ns=2;i=2003"
           "17" Int32 (VInt 17) timed_out); reflexivity.
Defined.

(** *** The verdict of the read-back *)

(** A value equals itself, except NaN. *)
Lemma py_eq_same v : py_eq v v = negb (is_nan v).
Proof.
  destruct v as [|b|z|f|s|n]; simpl.
  - reflexivity.
  - unfold py_eq. simpl. apply Z.eqb_refl.
  - unfold py_eq. simpl. apply Z.eqb_refl.
  - unfold py_eq. simpl. destruct f as [sg|sg| |sg m e]; try reflexivity.
    + now destruct sg.
    + unfold SFeqb, SFcompare. rewrite Z.compare_refl.
      change (Pos.compare_cont Eq m m) with (Pos.compare m m).
      rewrite Pos.compare_refl. now destruct sg.
  - unfold py_eq. simpl. apply String.eqb_refl.
  - unfold py_eq. simpl. apply Nat.eqb_refl.
Qed.

(** X11: against a server that returns at the read-back exactly what was
    written, the write is logged as verified unless the converted value is
    NaN: a NaN written to a floating node always draws the
    "Verification failed" warning, since it differs from itself
    (lines 61-65). *)
Theorem faithful_read_back_verifies_unless_nan :
  forall (S : Type) (lib : Library S) (rt : Runtime) (s0 s1 s2 s3 s4 s5 : S)
         (url auth : string) (user pw : option string) (nid raw : string)
         (dt : VariantType) (cv : PyValue),
    client lib url = Ok tt ->
    credentials_accepted auth user pw = true ->
    connect lib s0 = (Ok tt, s1) ->
    get_node lib nid s1 = (Ok tt, s2) ->
    read_data_type_as_variant_type lib (mkNode nid) s2 = (Ok dt, s3) ->
    convert_by_type rt dt raw = Ok cv ->
    write_value lib (mkNode nid) cv s3 = (Ok tt, s4) ->
    read_value lib (mkNode nid) s4 = (Ok cv, s5) ->
    let t := trace (snd (main lib rt url auth user pw "write" nid (Some raw)
                           (mkWorld s0 []))) in
    if is_nan cv
    then In (verification_failed cv cv) t /\ ~ In (verified nid cv) t
    else In (verified nid cv) t /\ logged WARNING t = [].
Proof.
  intros S lib rt s0 s1 s2 s3 s4 s5 url auth user pw nid raw dt cv
         Hb Hc Hconn Hnode Htype Hconv Hwrite Hread t. subst t.
  pose proof (py_eq_same cv) as Heq.
  unfold verified, verification_failed.
  accepted Hb Hc; given Hconn; given Hnode; given Htype; given Hconv;
    given Hwrite; given Hread; given Heq;
    destruct (is_nan cv); exec;
    destruct (disconnect lib s5) as [[[]|e] s6]; simpl;
    (split; [tauto|]); solve [reflexivity | intuition discriminate].
Qed.

Lemma nan_is_never_verified_witness :
  let nan := VFloat S754_nan in
  let stored := update "ns=2;i=2005" nan plant in
  client memory endpoint = Ok tt
  /\ credentials_accepted "anonymous" None None = true
  /\ connect memory plant = (Ok tt, plant)
  /\ get_node memory "ns=2;i=2005" plant = (Ok tt, plant)
  /\ read_data_type_as_variant_type memory (mkNode "ns=2;i=2005") plant
     = (Ok Double, plant)
  /\ convert_by_type cpython Double "nan" = Ok nan
  /\ write_value memory (mkNode "ns=2;i=2005") nan plant = (Ok tt, stored)
  /\ read_value memory (mkNode "ns=2;i=2005") stored = (Ok nan, stored)
  /\ let t := trace (snd (main memory cpython endpoint "anonymous" None None
                            "write" "ns=2;i=2005" (Some "nan")
                            (mkWorld plant []))) in
     if is_nan nan
     then In (verification_failed nan nan) t
          /\ ~ In (verified "ns=2;i=2005" nan) t
     else In (verified "ns=2;i=2005" nan) t /\ logged WARNING t = [].
Proof.
  intros nan stored. split; [reflexivity|].
  do 7 (split; [reflexivity|]).
  apply (faithful_read_back_verifies_unless_nan Store memory cpython plant
           plant plant plant stored stored endpoint "anonymous" None None
           "ns=2;i=2005" "nan" Double nan); reflexivity.
Defined.

(** *** What holds on every path *)

(** X12: nothing is retried - in one invocation the library is asked at
    most once for each of: the connection, the node, its data type, a
    write, a read, the disconnection - and at most one ERROR record is
    logged (lines 41-77). *)
Theorem nothing_is_retried :
  forall (S : Type) (lib : Library S) (rt : Runtime) (s0 : S)
         (url auth : string) (user pw : option string)
         (op nid : string) (val : option string),
    let t := trace (snd (main lib rt url auth user pw op nid val
                           (mkWorld s0 []))) in
    forallb (fun p => Nat.leb (count p t) 1)
      [is_connect; is_get_node; is_read_data_type; is_write; is_read_value;
       is_disconnect] = true
    /\ Nat.leb (List.length (logged ERROR t)) 1 = true.
Proof.
  intros. subst t. explore; split; reflexivity.
Qed.

(** X13: an error ends the work - after the first ERROR record the only
    call still made is [disconnect] (lines 35-39, 50-52, 66-77). *)
Theorem errors_are_terminal :
  forall (S : Type) (lib : Library S) (rt : Runtime) (s0 : S)
         (url auth : string) (user pw : option string)
         (op nid : string) (val : option string),
    forallb is_disconnect
      (calls (after_error
                (trace (snd (main lib rt url auth user pw op nid val
                               (mkWorld s0 [])))))) = true.
Proof.
  intros. explore; reflexivity.
Qed.

(** X14: the session brackets the work - when the client object is built
    and the credentials are accepted the calls are: calls on local
    objects, [connect], then only requests about the node, and
    [disconnect] as the very last call; when [Client(url)] raises or the
    credentials are rejected no call leaves the process
    (lines 28-42, 75-76). *)
Theorem session_brackets_the_requests :
  forall (S : Type) (lib : Library S) (rt : Runtime) (s0 : S)
         (url auth : string) (user pw : option string)
         (op nid : string) (val : option string),
    let c := calls (trace (snd (main lib rt url auth user pw op nid val
                                  (mkWorld s0 [])))) in
    match client lib url with
    | Ok _ =>
        if credentials_accepted auth user pw then bracketed c
        else forallb (fun x => negb (is_network x || is_node_request x)) c
    | Raise _ => forallb (fun x => negb (is_network x || is_node_request x)) c
    end = true.
Proof.
  intros. subst c. unfold credentials_accepted.
  explore; reflexivity.
Qed.

(** X15: every request about a node is about the node named on the command
    line, and the only calls that set credentials on the client are
    [set_user] with the user name given, then [set_password] with the
    password given, once each, when the client object is built and
    [userpass] is accepted; none otherwise (lines 28-33, 46, 53-61). *)
Theorem requests_target_the_node :
  forall (S : Type) (lib : Library S) (rt : Runtime) (s0 : S)
         (url auth : string) (user pw : option string)
         (op nid : string) (val : option string),
    let c := calls (trace (snd (main lib rt url auth user pw op nid val
                                  (mkWorld s0 [])))) in
    forallb (targets nid) c = true
    /\ filter is_credential_call c
       = match client lib url with
         | Ok _ =>
             if credentials_accepted auth user pw
             then calls (login auth user pw) else []
         | Raise _ => []
         end.
Proof.
  intros. subst c. unfold credentials_accepted.
  explore; simpl; rewrite ?String.eqb_refl; split; reflexivity.
Qed.

(** X16: the only value ever written is the conversion of the raw value,
    for a data type the node reported, and only in a [write]
    (lines 49-57). *)
Theorem only_the_converted_value_is_written :
  forall (S : Type) (lib : Library S) (rt : Runtime) (s0 : S)
         (url auth : string) (user pw : option string)
         (op nid : string) (val : option string) (n : Node) (v : PyValue),
    In (CWriteValue n v)
       (calls (trace (snd (main lib rt url auth user pw op nid val
                             (mkWorld s0 []))))) ->
    op = "write" /\ n = mkNode nid
    /\ exists raw dt st st',
         val = Some raw
         /\ read_data_type_as_variant_type lib n st = (Ok dt, st')
         /\ convert_by_type rt dt raw = Ok v.
Proof.
  intros S lib rt s0 url auth user pw op nid val n v.
  explore; simpl; intros H;
    repeat (destruct H as [H|H]; try discriminate H); try contradiction;
    injection H as <- <-;
    (split; [now apply String.eqb_eq|]); (split; [reflexivity|]);
    eauto 10.
Qed.

Lemma only_the_converted_value_witness :
  In (CWriteValue (mkNode "ns=2;i=2003") (VInt 17))
     (calls (trace (snd (main memory cpython endpoint "anonymous" None None
                           "write" "ns=2;i=2003" (Some "17")
                           (mkWorld plant [])))))
  /\ "write" = "write" /\ mkNode "ns=2;i=2003" = mkNode "ns=2;i=2003"
  /\ exists raw dt st st',
       Some "17" = Some raw
       /\ read_data_type_as_variant_type memory (mkNode "ns=2;i=2003") st
          = (Ok dt, st')
       /\ convert_by_type cpython dt raw = Ok (VInt 17).
Proof.
  assert (H : In (CWriteValue (mkNode "ns=2;i=2003") (VInt 17))
                (calls (trace (snd (main memory cpython endpoint "anonymous"
                                      None None "write" "ns=2;i=2003"
                                      (Some "17") (mkWorld plant []))))))
    by (vm_compute; tauto).
  split; [exact H|].
  exact (only_the_converted_value_is_written Store memory cpython plant
           endpoint "anonymous" None None "write" "ns=2;i=2003" (Some "17")
           (mkNode "ns=2;i=2003") (VInt 17) H).
Defined.

(** *** How [main] ends *)

(** X17: [main] lets no [Exception] of the work inside the [try] escape:
    if it raises, the exception was raised by [Client(url)] before the
    [try], or by [disconnect] in the [finally], or it is outside
    [Exception] (an interrupt, a cancellation), which the handlers do not
    catch (lines 28, 66-77). *)
Theorem main_raises_only_from_disconnect_or_outside_Exception :
  forall (S : Type) (lib : Library S) (rt : Runtime) (s0 : S)
         (url auth : string) (user pw : option string)
         (op nid : string) (val : option string),
    match fst (main lib rt url auth user pw op nid val (mkWorld s0 [])) with
    | Throw e =>
        client lib url = Raise e
        \/ is_Exception e = false
        \/ exists s, fst (disconnect lib s) = Raise e
    | Normal | Return => True
    end.
Proof.
  intros.
  explore;
    first
      [ exact I
      | left; reflexivity
      | right; left; assumption
      | right; right;
        match goal with
        | H : disconnect lib ?s = (Raise ?e, _) |- exists _, _ = Raise ?e =>
            exists s; rewrite H; reflexivity
        end ].
Qed.

(** X18: when [disconnect] raises, [main] raises that exception whatever
    came before - a completed read or write included - and the
    "Disconnected" record is not logged (lines 75-77). *)
Theorem disconnect_failure_leaves_main :
  forall (S : Type) (lib : Library S) (rt : Runtime) (s0 : S)
         (url auth : string) (user pw : option string)
         (op nid : string) (val : option string) (e : Exn),
    client lib url = Ok tt ->
    credentials_accepted auth user pw = true ->
    (forall s, fst (disconnect lib s) = Raise e) ->
    let r := main lib rt url auth user pw op nid val (mkWorld s0 []) in
    fst r = Throw e /\ ~ In (Logged INFO disconnected) (trace (snd r)).
Proof.
  intros S lib rt s0 url auth user pw op nid val e Hb Hc Hd r. subst r.
  accepted Hb Hc; explore;
    match goal with
    | H : disconnect lib ?s = _ |- _ =>
        pose proof (Hd s) as Hs; rewrite H in Hs; simpl in Hs;
        first [discriminate Hs | injection Hs as <-]
    end;
    (split; [reflexivity|]); simpl; intuition discriminate.
Qed.

Lemma disconnect_failure_witness :
  let lib := failing is_disconnect timed_out in
  client lib endpoint = Ok tt
  /\ credentials_accepted "anonymous" None None = true
  /\ (forall s, fst (disconnect lib s) = Raise timed_out)
  /\ let r := main lib cpython endpoint "anonymous" None None "read"
                "ns=2;i=2003" None (mkWorld plant []) in
     fst r = Throw timed_out
     /\ ~ In (Logged INFO disconnected) (trace (snd r)).
Proof.
  intro lib. split; [reflexivity|]. split; [reflexivity|]. split; [reflexivity|].
  apply (disconnect_failure_leaves_main Store lib cpython plant endpoint
           "anonymous" None None "read" "ns=2;i=2003" None timed_out);
    reflexivity.
Defined.

End Paths.

(* ================================================================== *)
(** ** Further properties: numbers as text, and the command line *)
(* ================================================================== *)

Module CommandLineFacts.
Import Py Ua Client Spec Fixture.

Local Abbreviation chars d :=
  (list_ascii_of_string (NilEmpty.string_of_uint d)).

Lemma digits_value_push acc v :
  digits_value (rev (v :: acc)) = 10 * digits_value (rev acc) + v.
Proof. unfold digits_value. simpl. now rewrite fold_left_app. Qed.

Lemma digitpart_tail_digit c l acc :
  is_digit c = true ->
  digitpart_tail (c :: l) acc = digitpart_tail l (digit_value c :: acc).
Proof. intro H. simpl. now rewrite H. Qed.

(** Reading the digits of a decimal numeral: all of them are taken, and
    their value is the number the numeral denotes. *)
Lemma digitpart_tail_numeral d :
  forall acc, exists acc',
    digitpart_tail (chars d) acc = (acc', [])
    /\ List.length acc' = (List.length acc + Decimal.nb_digits d)%nat
    /\ (forall p, digits_value (rev acc) = Z.pos p ->
                  digits_value (rev acc') = Z.pos (Pos.of_uint_acc d p))
    /\ (digits_value (rev acc) = 0 ->
        digits_value (rev acc') = Z.of_N (Pos.of_uint d)).
Proof.
  induction d as [|d IH|d IH|d IH|d IH|d IH|d IH|d IH|d IH|d IH|d IH];
    intro acc.
  { exists acc. repeat split; simpl; auto. }
  all: simpl list_ascii_of_string;
    rewrite digitpart_tail_digit by reflexivity;
    match goal with
    | |- context [digitpart_tail _ (?v :: ?a)] =>
        destruct (IH (v :: a)) as (acc' & E & L & P & Z0);
        rewrite digits_value_push in P, Z0
    end;
    exists acc'; split; [exact E|]; split; [simpl in L |- *; lia|];
    vm_compute digit_value in P, Z0; split;
    [ intros p Hp; cbn [Pos.of_uint_acc]; apply P; rewrite Hp; lia
    | intros Ha; cbn [Pos.of_uint Z.of_N];
      first [apply Z0; rewrite Ha; reflexivity
            | apply P; rewrite Ha; reflexivity] ].
Qed.

Lemma numeral_chars_are_digits d : forallb is_digit (chars d) = true.
Proof. induction d; simpl; auto. Qed.

Lemma lstrip_no_space l :
  forallb (fun c => negb (is_space c)) l = true -> lstrip l = l.
Proof.
  destruct l as [|c l]; [reflexivity|]. simpl.
  destruct (is_space c); [discriminate|reflexivity].
Qed.

Lemma strip_no_space l :
  forallb (fun c => negb (is_space c)) l = true -> strip l = l.
Proof.
  intro H. unfold strip. rewrite (lstrip_no_space l H).
  rewrite lstrip_no_space; [apply rev_involutive|].
  rewrite forallb_forall in *. intros c Hc. apply H. now apply in_rev.
Qed.

Lemma digit_facts c :
  is_digit c = true ->
  is_ascii c = true /\ is_space c = false
  /\ Ascii.eqb c "-" = false /\ Ascii.eqb c "+" = false
  /\ Ascii.eqb c "_" = false.
Proof.
  destruct c as [[] [] [] [] [] [] [] []]; intro H;
    solve [discriminate H | repeat split; reflexivity].
Qed.

(** [int] reads the digits of a numeral as the number it denotes. *)
Lemma py_int_numeral rt (neg : bool) d :
  d <> Decimal.Nil ->
  (Decimal.nb_digits d <= 640)%nat ->
  py_int rt (NilEmpty.string_of_int (if neg then Decimal.Neg d
                                     else Decimal.Pos d))
  = Ok (Z.of_int (if neg then Decimal.Neg d else Decimal.Pos d)).
Proof.
  intros Hd Hlen.
  pose proof (numeral_chars_are_digits d) as Hdig.
  rewrite forallb_forall in Hdig.
  assert (Hall : forall c, In c (if neg then "-"%char :: chars d else chars d)
                   -> is_ascii c = true /\ is_space c = false).
  { intros c Hc.
    assert (In c (chars d) -> is_ascii c = true /\ is_space c = false)
      by (intro Hi; apply Hdig, digit_facts in Hi; tauto).
    destruct neg; [destruct Hc as [<-|Hc]; [now vm_compute|]|]; auto. }
  assert (Htext : list_ascii_of_string
                    (NilEmpty.string_of_int
                       (if neg then Decimal.Neg d else Decimal.Pos d))
                  = if neg then "-"%char :: chars d else chars d)
    by now destruct neg.
  unfold py_int, number_text. rewrite Htext.
  replace (forallb is_ascii (if neg then "-"%char :: chars d else chars d))
    with true
    by (symmetry; apply forallb_forall; intros c Hc; now apply Hall).
  rewrite strip_no_space
    by (apply forallb_forall; intros c Hc; apply Hall in Hc as [_ ->];
        reflexivity).
  assert (Hsign : sign (if neg then "-"%char :: chars d else chars d)
                  = (neg, chars d)).
  { destruct neg; [reflexivity|].
    destruct (chars d) as [|c l] eqn:E; [reflexivity|].
    assert (Hc : is_digit c = true) by (apply Hdig; now left).
    apply digit_facts in Hc as (_ & _ & Hm & Hp & _).
    simpl. now rewrite Hm, Hp. }
  rewrite Hsign.
  destruct (digitpart_tail_numeral d []) as (acc' & E & L & _ & V).
  specialize (V eq_refl). simpl in L.
  assert (Hpart : digitpart (chars d) = (rev acc', [])).
  { destruct d; try congruence; simpl in E |- *; now rewrite E. }
  rewrite Hpart. rewrite length_rev, L.
  destruct (rev acc') as [|v ds] eqn:Er.
  { apply (f_equal (@List.length Z)) in Er. rewrite length_rev, L in Er.
    destruct d; [congruence|simpl in Er; discriminate..]. }
  replace (max_str_digits_threshold <? Z.of_nat (Decimal.nb_digits d))
    with false
    by (symmetry; apply Z.ltb_ge; unfold max_str_digits_threshold; lia).
  simpl andb. cbv iota. rewrite V.
  destruct neg; reflexivity.
Qed.

(** [str] and [int] agree on integers: the decimal text of an integer is
    read back as that integer, whatever the interpreter settings, as long
    as it has at most 640 characters (below the length at which the limit
    on digits is consulted). *)
Lemma int_reads_back_str_of_int :
  forall (rt : Runtime) (n : Z),
    (String.length (str_of_int n) <= 640)%nat ->
    py_int rt (str_of_int n) = Ok n.
Proof.
  intros rt n Hlen. unfold str_of_int in *.
  rewrite <- (DecimalZ.of_to n) at 2.
  assert (Hsl : forall d, String.length (NilEmpty.string_of_uint d)
                          = Decimal.nb_digits d)
    by (induction d; simpl; congruence).
  destruct n as [|p|p]; simpl Z.to_int in *.
  - reflexivity.
  - apply (py_int_numeral rt false).
    + apply Unsigned.to_uint_nonnil.
    + simpl in Hlen. now rewrite Hsl in Hlen.
  - apply (py_int_numeral rt true).
    + apply Unsigned.to_uint_nonnil.
    + simpl in Hlen. rewrite Hsl in Hlen. lia.
Qed.

(** X19: every integer can be written - on a node of an integer type the
    decimal text of an integer converts to that integer, and on a Boolean
    node to its truth value, whatever the interpreter settings, as long as
    the text has at most 640 characters (lines 16-17, 20-21). *)
Theorem decimal_text_converts_to_its_integer :
  forall (rt : Runtime) (t : VariantType) (n : Z),
    (String.length (str_of_int n) <= 640)%nat ->
    (In t [Int16; Int32; Int64] ->
     convert_by_type rt t (str_of_int n) = Ok (VInt n))
    /\ convert_by_type rt Boolean (str_of_int n) = Ok (VBool (negb (n =? 0))).
Proof.
  intros rt t n Hlen.
  pose proof (int_reads_back_str_of_int rt n Hlen) as H.
  unfold convert_by_type. split.
  - intros [<-|[<-|[<-|[]]]]; simpl; now rewrite H.
  - simpl. now rewrite H.
Qed.

Lemma decimal_text_converts_witness :
  (String.length (str_of_int (-4840)) <= 640)%nat
  /\ (In Int16 [Int16; Int32; Int64] ->
      convert_by_type cpython Int16 (str_of_int (-4840)) = Ok (VInt (-4840)))
  /\ convert_by_type cpython Boolean (str_of_int (-4840))
     = Ok (VBool (negb (-4840 =? 0))).
Proof.
  split; [apply Nat.leb_le; reflexivity|].
  apply (decimal_text_converts_to_its_integer cpython Int16 (-4840)).
  apply Nat.leb_le. reflexivity.
Defined.

(** *** The command line *)

(** What the parser lets through meets the [choices]. *)
Lemma parse_args_meets_choices rt c args :
  parse_args rt c = Some args ->
  accepted_by_parser args = true
  /\ auth_type args = or_default (given_auth_type c) ""
  /\ operation args = or_default (given_operation c) ""
  /\ port_of rt (given_port c) = Ok (port args).
Proof.
  unfold parse_args, accepted_by_parser, choice.
  destruct (given_auth_type c) as [auth|]; [|discriminate].
  destruct (given_operation c) as [op|]; [|discriminate].
  destruct (given_node_id c) as [nid|]; [|discriminate].
  destruct (existsb _ _ && existsb _ _) eqn:E; [|discriminate].
  destruct (port_of rt (given_port c)) as [p|e]; [|discriminate].
  intros [= <-]. simpl in *. rewrite !orb_false_r in E.
  now rewrite E.
Qed.

(** X20: started from the command line, [main] never takes its two
    "invalid" branches - the parser has turned down an auth-type or an
    operation outside the [choices] before [main] is called - so neither
    "Invalid operation" nor "Invalid authentication type" is ever logged
    (lines 37-39, 70-71, 84, 87, 91-94). *)
Theorem command_line_never_reaches_invalid_branches :
  forall (S : Type) (lib : Library S) (rt : Runtime) (s0 : S)
         (c : CommandLine) (r : Completion * World S),
    script lib rt s0 c = Some r ->
    ~ In invalid_operation (logged ERROR (trace (snd r)))
    /\ ~ In invalid_auth_type (logged ERROR (trace (snd r))).
Proof.
  intros S lib rt s0 c r. unfold script.
  destruct (parse_args rt c) as [args|] eqn:E; [|discriminate].
  intros [= <-]. apply parse_args_meets_choices in E as [E _].
  now apply Properties.parsed_arguments_are_valid.
Qed.

Lemma command_line_witness :
  let c := mkCommandLine None (Some " 04_840 ") None (Some "anonymous") None
             None (Some "read") (Some "ns=2;i=2003") None in
  let r := Client.run memory cpython plant
             (mkArgs "localhost" 4840 "/freeopcua/server/" "anonymous" None
                None "read" "ns=2;i=2003" None) in
  script memory cpython plant c = Some r
  /\ ~ In invalid_operation (logged ERROR (trace (snd r)))
  /\ ~ In invalid_auth_type (logged ERROR (trace (snd r))).
Proof.
  intros c r.
  assert (H : script memory cpython plant c = Some r) by reflexivity.
  split; [exact H|].
  exact (command_line_never_reaches_invalid_branches Store memory cpython
           plant c r H).
Defined.

(** X21: the port is put into the URL in a spelling the parser reads
    back: giving [--port] the decimal text that stands in the URL leads to
    the same arguments, hence to the same URL and the same run
    (lines 82, 91-92). *)
Theorem port_in_url_parses_back :
  forall (rt : Runtime) (c : CommandLine) (args : Args),
    parse_args rt c = Some args ->
    (String.length (str_of_int (port args)) <= 640)%nat ->
    parse_args rt
      (mkCommandLine (given_hostname c) (Some (str_of_int (port args)))
         (given_path c) (given_auth_type c) (given_username c)
         (given_password c) (given_operation c) (given_node_id c)
         (given_value c))
    = Some args.
Proof.
  intros rt c args H Hlen.
  pose proof (int_reads_back_str_of_int rt (port args) Hlen) as Hport.
  revert H. unfold parse_args. simpl.
  destruct (given_auth_type c) as [auth|]; [|discriminate].
  destruct (given_operation c) as [op|]; [|discriminate].
  destruct (given_node_id c) as [nid|]; [|discriminate].
  destruct (_ && _); [|discriminate].
  destruct (port_of rt (given_port c)) as [p|e]; [|discriminate].
  intros [= <-]. cbn [port port_of] in *. now rewrite Hport.
Qed.

Lemma port_in_url_witness :
  let c := mkCommandLine (Some "plc.local") (Some " +04_840 ") None
             (Some "userpass") (Some "operator") (Some "secret")
             (Some "write") (Some "ns=2;i=2003") (Some "17") in
  let args := mkArgs "plc.local" 4840 "/freeopcua/server/" "userpass"
                (Some "operator") (Some "secret") "write" "ns=2;i=2003"
                (Some "17") in
  parse_args cpython c = Some args
  /\ (String.length (str_of_int (port args)) <= 640)%nat
  /\ parse_args cpython
       (mkCommandLine (given_hostname c) (Some (str_of_int (port args)))
          (given_path c) (given_auth_type c) (given_username c)
          (given_password c) (given_operation c) (given_node_id c)
          (given_value c))
     = Some args.
Proof.
  intros c args.
  assert (H : parse_args cpython c = Some args) by reflexivity.
  assert (L : (String.length (str_of_int (port args)) <= 640)%nat)
    by (apply Nat.leb_le; reflexivity).
  split; [exact H|]. split; [exact L|].
  exact (port_in_url_parses_back cpython c args H L).
Defined.

End CommandLineFacts.
